(** * fit-dump: a reflection-driven dump of decoded FIT files

    A shallow embedding of [fit-dump/fit-dump.go] and of the second,
    kind-first variant of the same program, with the properties of the
    tree printer, the file-type selector and the command line driver.

    Go strings are byte strings: they are [string]s here, one [ascii] per
    byte.  Go's [int] indent level is a [nat]: [run] starts every dump at
    level 0 and the printer only ever adds one per nesting step. *)

From Stdlib Require Import ZArith List Bool String Ascii Lia.
From Stdlib Require Import DecimalString SpecFloat.
Import ListNotations.

#[local] Set Warnings "-register-all".

Local Open Scope string_scope.
Local Open Scope Z_scope.

(** ** Results of Go calls: a value, or a panic carrying its message *)

Inductive Result (A : Type) : Type :=
| Returns (a : A)
| Panics (msg : string).
Arguments Returns {A} a.
Arguments Panics {A} msg.

(** ** The pieces of the Go standard library the program calls *)

Definition byte_val (c : ascii) : Z := Z.of_N (N_of_ascii c).

Fixpoint bytes (s : string) : list Z :=
  match s with
  | EmptyString => []
  | String c s' => byte_val c :: bytes s'
  end.

Definition byte_string (b : Z) : string :=
  String (ascii_of_N (Z.to_N b)) EmptyString.

Module utf8.

Definition RuneError : Z := 0xFFFD.
Definition RuneSelf : Z := 0x80.

Definition maskx : Z := 0x3F.
Definition mask2 : Z := 0x1F.
Definition mask3 : Z := 0x0F.
Definition mask4 : Z := 0x07.
Definition locb : Z := 0x80.
Definition hicb : Z := 0xBF.

Definition xx : Z := 0xF1.
Definition as_ : Z := 0xF0.
Definition s1 : Z := 0x02.
Definition s2 : Z := 0x13.
Definition s3 : Z := 0x03.
Definition s4 : Z := 0x23.
Definition s5 : Z := 0x34.
Definition s6 : Z := 0x04.
Definition s7 : Z := 0x44.

(** The 256-entry table [first], read row by row. *)
Definition first (b : Z) : Z :=
  if b <? 0x80 then as_
  else if b <? 0xC2 then xx
  else if b <? 0xE0 then s1
  else if b =? 0xE0 then s2
  else if b <? 0xED then s3
  else if b =? 0xED then s4
  else if b <? 0xF0 then s3
  else if b =? 0xF0 then s5
  else if b <? 0xF4 then s6
  else if b =? 0xF4 then s7
  else xx.

(** [acceptRanges]: the pair (lo, hi) allowed for the second byte. *)
Definition acceptRanges (i : Z) : Z * Z :=
  if i =? 0 then (locb, hicb)
  else if i =? 1 then (0xA0, hicb)
  else if i =? 2 then (locb, 0x9F)
  else if i =? 3 then (0x90, hicb)
  else if i =? 4 then (locb, 0x8F)
  else (0, 0).

(** [p[i]]; every use below is behind the length test [n < sz]. *)
Definition at_ (p : list Z) (i : nat) : Z := nth i p 0.

Definition DecodeRune (p : list Z) : Z * Z :=
  let n := Z.of_nat (List.length p) in
  if n <? 1 then (RuneError, 0) else
  let p0 := at_ p 0 in
  let x := first p0 in
  if as_ <=? x then
    (* rune(x) << 31 >> 31 on int32: all ones when bit 0 of x is set *)
    let mask := - Z.land x 1 in
    (Z.lor (Z.ldiff p0 mask) (Z.land RuneError mask), 1)
  else
  let sz := Z.land x 7 in
  let accept := acceptRanges (Z.shiftr x 4) in
  if n <? sz then (RuneError, 1) else
  let b1 := at_ p 1 in
  if (b1 <? fst accept) || (snd accept <? b1) then (RuneError, 1) else
  if sz <=? 2 then
    (Z.lor (Z.shiftl (Z.land p0 mask2) 6) (Z.land b1 maskx), 2)
  else
  let b2 := at_ p 2 in
  if (b2 <? locb) || (hicb <? b2) then (RuneError, 1) else
  if sz <=? 3 then
    (Z.lor (Z.lor (Z.shiftl (Z.land p0 mask3) 12)
                  (Z.shiftl (Z.land b1 maskx) 6))
           (Z.land b2 maskx), 3)
  else
  let b3 := at_ p 3 in
  if (b3 <? locb) || (hicb <? b3) then (RuneError, 1) else
  (Z.lor (Z.lor (Z.lor (Z.shiftl (Z.land p0 mask4) 18)
                       (Z.shiftl (Z.land b1 maskx) 12))
                (Z.shiftl (Z.land b2 maskx) 6))
         (Z.land b3 maskx), 4).

(** Well-formed UTF-8, after table 3-7 of the Unicode standard; this is
    the yardstick [DecodeRune] is measured against, written without it. *)
Definition cont (b : Z) : bool := (0x80 <=? b) && (b <=? 0xBF).

Definition within (lo hi b : Z) : bool := (lo <=? b) && (b <=? hi).

Definition lead2 (b0 b1 : Z) : bool := within 0xC2 0xDF b0 && cont b1.

Definition lead3 (b0 b1 b2 : Z) : bool :=
  ((b0 =? 0xE0) && within 0xA0 0xBF b1
   || within 0xE1 0xEC b0 && cont b1
   || (b0 =? 0xED) && within 0x80 0x9F b1
   || within 0xEE 0xEF b0 && cont b1) && cont b2.

Definition lead4 (b0 b1 b2 b3 : Z) : bool :=
  ((b0 =? 0xF0) && within 0x90 0xBF b1
   || within 0xF1 0xF3 b0 && cont b1
   || (b0 =? 0xF4) && within 0x80 0x8F b1) && cont b2 && cont b3.

(** The text starts with one well-formed scalar value. *)
Definition WellFormedHead (p : list Z) : bool :=
  match p with
  | [] => false
  | b0 :: t =>
      within 0 0x7F b0 ||
      match t with
      | [] => false
      | b1 :: t1 =>
          lead2 b0 b1 ||
          match t1 with
          | [] => false
          | b2 :: t2 =>
              lead3 b0 b1 b2 ||
              match t2 with
              | [] => false
              | b3 :: _ => lead4 b0 b1 b2 b3
              end
          end
      end
  end.

(** The whole text is a run of well-formed scalar values. *)
Fixpoint Valid (p : list Z) : bool :=
  match p with
  | [] => true
  | b0 :: t =>
      if within 0 0x7F b0 then Valid t else
      match t with
      | [] => false
      | b1 :: t1 =>
          if lead2 b0 b1 then Valid t1 else
          match t1 with
          | [] => false
          | b2 :: t2 =>
              if lead3 b0 b1 b2 then Valid t2 else
              match t2 with
              | [] => false
              | b3 :: t3 => lead4 b0 b1 b2 b3 && Valid t3
              end
          end
      end
  end.

End utf8.

Module unicode.

Definition MaxLatin1 : Z := 0xFF.

(** The entries of the Latin-1 [properties] table that carry [pLu]. *)
Definition latin1Upper (r : Z) : bool :=
  utf8.within 0x41 0x5A r || utf8.within 0xC0 0xD6 r
  || utf8.within 0xD8 0xDE r.

End unicode.

Module strings.

Definition tab : string := String "009"%char EmptyString.
Definition nl : string := String "010"%char EmptyString.

Fixpoint Repeat (s : string) (count : nat) : string :=
  match count with
  | O => EmptyString
  | S n => s ++ Repeat s n
  end.

Fixpoint dropBytes (n : nat) (s : string) : string :=
  match n, s with
  | O, _ => s
  | S n', String _ s' => dropBytes n' s'
  | S _, EmptyString => EmptyString
  end.

Definition HasSuffix (s suffix : string) : bool :=
  (String.length suffix <=? String.length s)%nat
  && String.eqb (dropBytes (String.length s - String.length suffix) s) suffix.

(** [strings.ToLower] on a one-byte string, the only way the program
    calls it ([name[:1]]).  An ASCII byte takes the fast path; any other
    single byte is not a rune, and [Map] replaces it with the three
    bytes of U+FFFD. *)
Definition ToLower1 (c : ascii) : string :=
  let b := byte_val c in
  if b <? utf8.RuneSelf then
    if (0x41 <=? b) && (b <=? 0x5A) then byte_string (b + 0x20)
    else String c EmptyString
  else String "239"%char (String "191"%char (String "189"%char EmptyString)).

End strings.

Module strconv.

(** [%d] of a non-negative count or index. *)
Definition Itoa (n : nat) : string := NilZero.string_of_uint (Nat.to_uint n).

(** [%v] of an integer. *)
Definition FormatInt (z : Z) : string := NilZero.string_of_int (Z.to_int z).

End strconv.

Module math.

(** The IEEE 754 datum behind a bit pattern with [mbits] fraction bits
    and [ebits] exponent bits. *)
Definition frombits (mbits ebits bits : Z) : spec_float :=
  let m := Z.land bits (2 ^ mbits - 1) in
  let e := Z.land (Z.shiftr bits mbits) (2 ^ ebits - 1) in
  let s := Z.testbit bits (mbits + ebits) in
  if e =? 2 ^ ebits - 1 then
    if m =? 0 then S754_infinity s else S754_nan
  else if e =? 0 then
    match m with
    | Zpos p => S754_finite s p (2 - 2 ^ (ebits - 1) - mbits)
    | _ => S754_zero s
    end
  else
    match m + 2 ^ mbits with
    | Zpos p => S754_finite s p (e - (2 ^ (ebits - 1) - 1) - mbits)
    | _ => S754_zero s
    end.

Definition Float32frombits : Z -> spec_float := frombits 23 8.
Definition Float64frombits : Z -> spec_float := frombits 52 11.

End math.

(** ** Reflected values *)

Module reflect.

Inductive Kind : Set :=
| Invalid | Bool
| Int | Int8 | Int16 | Int32 | Int64
| Uint | Uint8 | Uint16 | Uint32 | Uint64 | Uintptr
| Float32 | Float64 | Complex64 | Complex128
| Array | Chan | Func | Interface | Map | Ptr | Slice | String | Struct
| UnsafePointer.

Inductive IntKind : Set := KInt | KInt8 | KInt16 | KInt32 | KInt64.
Inductive UintKind : Set :=
| KUint | KUint8 | KUint16 | KUint32 | KUint64 | KUintptr.
Inductive OtherKind : Set :=
| KComplex64 | KComplex128 | KArray | KChan | KFunc | KInterface | KMap
| KUnsafePointer.

(** The [String] method of a value's type, if its method set has one:
    [None] when it has none, otherwise what calling it on this value
    does. *)
Definition StringMethod : Type := option (Result string).

(** A [reflect.Value] as the printer can observe it.  [Zero] is the zero
    Value (what [reflect.Indirect] yields for a nil pointer).  Integers
    hold what [v.Int()] and [v.Uint()] return, floats their bit pattern.
    Values of the kinds the printer never looks into only ever reach
    [fmt]; they are kept as the text [fmt] prints for them. *)
Inductive Value : Type :=
| Zero
| VBool (m : StringMethod) (b : bool)
| VInt (k : IntKind) (m : StringMethod) (i : Z)
| VUint (k : UintKind) (m : StringMethod) (u : Z)
| VFloat32 (m : StringMethod) (bits : Z)
| VFloat64 (m : StringMethod) (bits : Z)
| VString (m : StringMethod) (s : string)
| VStruct (tname : string) (m : StringMethod)
          (fields : list (string * Value))
| VPtr (m : StringMethod) (elem : option Value)
| VSlice (m : StringMethod) (elems : list Value)
| VOther (k : OtherKind) (m : StringMethod) (text : string).

Definition Value_Kind (v : Value) : Kind :=
  match v with
  | Zero => Invalid
  | VBool _ _ => Bool
  | VInt KInt _ _ => Int
  | VInt KInt8 _ _ => Int8
  | VInt KInt16 _ _ => Int16
  | VInt KInt32 _ _ => Int32
  | VInt KInt64 _ _ => Int64
  | VUint KUint _ _ => Uint
  | VUint KUint8 _ _ => Uint8
  | VUint KUint16 _ _ => Uint16
  | VUint KUint32 _ _ => Uint32
  | VUint KUint64 _ _ => Uint64
  | VUint KUintptr _ _ => Uintptr
  | VFloat32 _ _ => Float32
  | VFloat64 _ _ => Float64
  | VString _ _ => String
  | VStruct _ _ _ => Struct
  | VPtr _ _ => Ptr
  | VSlice _ _ => Slice
  | VOther KComplex64 _ _ => Complex64
  | VOther KComplex128 _ _ => Complex128
  | VOther KArray _ _ => Array
  | VOther KChan _ _ => Chan
  | VOther KFunc _ _ => Func
  | VOther KInterface _ _ => Interface
  | VOther KMap _ _ => Map
  | VOther KUnsafePointer _ _ => UnsafePointer
  end.

(** The method set entry for [String] of a valid value. *)
Definition stringMethod (v : Value) : StringMethod :=
  match v with
  | Zero => None
  | VBool m _ | VInt _ m _ | VUint _ m _ | VFloat32 m _ | VFloat64 m _
  | VString m _ | VStruct _ m _ | VPtr m _ | VSlice m _ | VOther _ m _ => m
  end.

(** [v.MethodByName("String")]: panics on the zero Value; otherwise the
    method, valid or not. *)
Definition Value_MethodByName_String (v : Value) : Result StringMethod :=
  match v with
  | Zero =>
      Panics "reflect: call of reflect.Value.MethodByName on zero Value"
  | _ => Returns (stringMethod v)
  end.

(** [v.Type().MethodByName("String")]: [v.Type()] panics on the zero
    Value. *)
Definition Value_Type_MethodByName_String (v : Value)
  : Result StringMethod :=
  match v with
  | Zero => Panics "reflect: call of reflect.Value.Type on zero Value"
  | _ => Returns (stringMethod v)
  end.

(** [v.Bool()], [v.Int()], [v.Uint()], [v.String()] and the bit pattern
    behind [v.Float()].  Each panics on a value of another kind; the
    sentinel table is indexed by [v.Kind()], so a predicate only ever
    receives a value of its own kind and the last branches are never
    taken. *)
Definition Value_Bool (v : Value) : bool :=
  match v with VBool _ b => b | _ => false end.
Definition Value_Int (v : Value) : Z :=
  match v with VInt _ _ i => i | _ => 0 end.
Definition Value_Uint (v : Value) : Z :=
  match v with VUint _ _ u => u | _ => 0 end.
Definition Value_String (v : Value) : string :=
  match v with VString _ s => s | _ => EmptyString end.
Definition Value_Float (v : Value) : spec_float :=
  match v with
  | VFloat32 _ bits => math.Float32frombits bits
  | VFloat64 _ bits => math.Float64frombits bits
  | _ => S754_zero false
  end.

(** [reflect.Indirect]: the pointee of a pointer (the zero Value for a
    nil one), any other value unchanged. *)
Definition Indirect (v : Value) : Value :=
  match v with
  | VPtr _ (Some e) => e
  | VPtr _ None => Zero
  | _ => v
  end.

End reflect.
Export reflect(Value(..), StringMethod).

(** ** The decoding library, as far as the program uses it *)

Module fit.

(** [fit.FileType]: the seventeen tags the program names, and every
    other value of the type. *)
Inductive FileType : Type :=
| FileTypeActivity | FileTypeDevice | FileTypeSettings | FileTypeSport
| FileTypeWorkout | FileTypeCourse | FileTypeSchedules | FileTypeWeight
| FileTypeTotals | FileTypeGoals | FileTypeBloodPressure
| FileTypeMonitoringA | FileTypeActivitySummary | FileTypeMonitoringDaily
| FileTypeMonitoringB | FileTypeSegment | FileTypeSegmentList
| FileTypeOther (code : Z).

(** The seventeen typed accessor methods of [*fit.File]. *)
Inductive Accessor : Set :=
| Activity | Device | Settings | Sport | Workout | Course | Schedules
| Weight | Totals | Goals | BloodPressure | MonitoringA | ActivitySummary
| MonitoringDaily | MonitoringB | Segment | SegmentList.

(** What an accessor hands back on success: a pointer to a struct. *)
Record Sub : Type := mkSub {
  sub_name : string;
  sub_method : StringMethod;
  sub_fields : list (string * Value)
}.

(** A decoded file: its tag, its reflected value, the top-level fields
    the second variant reads one by one, and the outcome of each
    accessor (an error message or a typed sub-structure). *)
Record File : Type := mkFile {
  Type_ : FileType;
  value : Value;
  Header : Value;
  CRC : Value;
  FileId : Value;
  FileCreator : Value;
  TimestampCorrelation : Value;
  UnknownMessages : Value;
  UnknownFields : Value;
  get : Accessor -> string + Sub
}.

End fit.

(** [reflect.ValueOf( *p )] for the pointer an accessor returned. *)
Definition ValueOf_deref (p : fit.Sub) : Value :=
  VStruct (fit.sub_name p) (fit.sub_method p) (fit.sub_fields p).

(** The library behaviour the model leaves open: the digits
    [strconv.FormatFloat(f, 'g', -1, bitSize)] gives a finite float, the
    text [fmt] gives a zero Value, struct, pointer or slice under [%v]
    ([false]) and [%+v] ([true]), the upper-case letters beyond Latin-1,
    and the text of a file-type tag. *)
Class GoLib : Type := {
  FormatFloat : spec_float -> Z -> string;
  Sprint_composite : bool -> Value -> string;
  isUpperExcludingLatin : Z -> bool;
  FileType_String : fit.FileType -> string
}.

(** ** Standard output and panics *)

Inductive Status : Type :=
| Done
| Panic (msg : string).

(** What a printing call leaves behind: the text written to standard
    output and whether it ran to its end. *)
Definition Out : Type := (string * Status)%type.

Definition done : Out := (EmptyString, Done).
Definition panic (msg : string) : Out := (EmptyString, Panic msg).

Definition andThen (a b : Out) : Out :=
  match a with
  | (s, Done) => (s ++ fst b, snd b)
  | (s, Panic msg) => (s, Panic msg)
  end.

Notation "a ;; b" := (andThen a b) (at level 61, right associativity).

Definition out_text (o : Out) : string := fst o.
Definition out_status (o : Out) : Status := snd o.

(** [for i := 0; i < val.NumField(); i++ { body }] over the fields. *)
Definition forFields (body : string -> Value -> Out)
  : list (string * Value) -> Out :=
  fix loop fs :=
    match fs with
    | [] => done
    | (fname, v) :: rest => body fname v ;; loop rest
    end.

(** [for i := 0; i < val.Len(); i++ { body }] over the elements, from
    index [i]. *)
Definition forElems (body : nat -> Value -> Out) : nat -> list Value -> Out :=
  fix loop i es :=
    match es with
    | [] => done
    | e :: rest => body i e ;; loop (S i) rest
    end.

(** ** What [fmt] prints *)

Module fmt.

Definition fmtFloat {L : GoLib} (f : spec_float) (size : Z) : string :=
  match f with
  | S754_nan => "NaN"
  | S754_infinity false => "+Inf"
  | S754_infinity true => "-Inf"
  | _ => FormatFloat f size
  end.

(** [%v] ([plus = false]) and [%+v] ([plus = true]) of a reflected
    value whose type has no [Format], [Error] or [String] method of its
    own; the flag only matters below a struct. *)
Definition Sprint {L : GoLib} (plus : bool) (v : Value) : string :=
  match v with
  | VBool _ b => if b then "true" else "false"
  | VInt _ _ i => strconv.FormatInt i
  | VUint _ _ u => strconv.FormatInt u
  | VFloat32 _ bits => fmtFloat (math.Float32frombits bits) 32
  | VFloat64 _ bits => fmtFloat (math.Float64frombits bits) 64
  | VString _ s => s
  | reflect.VOther _ _ text => text
  | _ => Sprint_composite plus v
  end.

End fmt.

(** [unicode.IsUpper]. *)
Definition IsUpper {L : GoLib} (r : Z) : bool :=
  if (0 <=? r) && (r <=? unicode.MaxLatin1) then unicode.latin1Upper r
  else isUpperExcludingLatin r.

(** [float32(x)]: round to binary32. *)
Definition float32 (f : spec_float) : spec_float :=
  match f with
  | S754_finite s m e => binary_round 24 128 s m e
  | _ => f
  end.

(** ** The process: what it does to the outside, in order *)

Inductive Event : Type :=
| EvOpen (path : string)
| EvDecode
| EvClose
| EvCall (a : fit.Accessor)
| EvStdout (text : string)
| EvStderr (text : string)
| EvExit (code : Z).

(** The surroundings of one invocation: the positional arguments left by
    [flag.Parse], what [os.Open] finds under a path (an error or the bytes
    of the file) and what [fit.Decode] makes of such bytes. *)
Record World : Type := mkWorld {
  Args : list string;
  Open : string -> string + list Z;
  Decode : list Z -> string + fit.File
}.

(** A Go [error] is kept as its message; [None] is [nil]. *)
Definition error : Type := option string.

(** A step of [run] or [main]: the events it caused and how it ended. *)
Definition Proc (A : Type) : Type := (list Event * Result A)%type.

Definition ret {A} (a : A) : Proc A := ([], Returns a).

Definition bind {A B} (p : Proc A) (k : A -> Proc B) : Proc B :=
  match p with
  | (evs, Returns a) => let (evs', r) := k a in ((evs ++ evs')%list, r)
  | (evs, Panics msg) => (evs, Panics msg)
  end.

Notation "x <- p ;;; k" := (bind p (fun x => k))
  (at level 61, p at next level, right associativity).

Definition emit (ev : Event) : Proc unit := ([ev], Returns tt).

(** A printing call inside a process: its text goes to standard output. *)
Definition print (o : Out) : Proc unit :=
  ([EvStdout (out_text o)],
   match out_status o with
   | Done => Returns tt
   | Panic msg => Panics msg
   end).

(** [defer f.Close()]: the file is closed when the body is left, by a
    return or by a panic. *)
Definition deferClose {A} (body : Proc A) : Proc A :=
  ((fst body ++ [EvClose])%list, snd body).

(** [body.Type().Name()]; the bodies [run] names are the structs the
    accessors return, and only structs keep their type's name here. *)
Definition Type_Name (v : Value) : string :=
  match v with
  | VStruct tname _ _ => tname
  | _ => EmptyString
  end.

Definition stdout : list Event -> string :=
  fix go evs :=
    match evs with
    | [] => EmptyString
    | EvStdout text :: rest => text ++ go rest
    | _ :: rest => go rest
    end.

Definition stderr : list Event -> string :=
  fix go evs :=
    match evs with
    | [] => EmptyString
    | EvStderr text :: rest => text ++ go rest
    | _ :: rest => go rest
    end.

Definition calls : list Event -> list fit.Accessor :=
  fix go evs :=
    match evs with
    | [] => []
    | EvCall a :: rest => a :: go rest
    | _ :: rest => go rest
    end.

Definition exitCode (evs : list Event) : option Z :=
  match List.last evs EvDecode with
  | EvExit code => Some code
  | _ => None
  end.

(** The Go runtime on an unrecovered panic: a report on standard error
    (its goroutine trace is left out) and exit status 2. *)
Definition crash (msg : string) : list Event :=
  [EvStderr ("panic: " ++ msg ++ strings.nl); EvExit 2].

(** ** The program, first variant (fit-dump.go, lines 1-312) *)

Module FitDump.

Definition printIndent (level : nat) (text : string) : Out :=
  (strings.Repeat strings.tab level ++ text, Done).

Definition invalidValues (k : reflect.Kind) : option (Value -> bool) :=
  match k with
  | reflect.Bool =>
      Some (fun v => Bool.eqb (reflect.Value_Bool v) false)
  | reflect.Int8 => Some (fun v => reflect.Value_Int v =? 0x7f)
  | reflect.Int16 => Some (fun v => reflect.Value_Int v =? 0x7fff)
  | reflect.Int32 => Some (fun v => reflect.Value_Int v =? 0x7fffffff)
  | reflect.Int64 =>
      Some (fun v => reflect.Value_Int v =? 0x7fffffffffffffff)
  | reflect.Uint8 => Some (fun v => reflect.Value_Uint v =? 0xff)
  | reflect.Uint16 => Some (fun v => reflect.Value_Uint v =? 0xffff)
  | reflect.Uint32 => Some (fun v => reflect.Value_Uint v =? 0xffffffff)
  | reflect.Uint64 =>
      Some (fun v => reflect.Value_Uint v =? 0xffffffffffffffff)
  | reflect.Float32 =>
      Some (fun v => SFeqb (float32 (reflect.Value_Float v))
                           (math.Float32frombits 0xFFFFFFFF))
  | reflect.Float64 =>
      Some (fun v => SFeqb (reflect.Value_Float v)
                           (math.Float64frombits 0xFFFFFFFFFFFFFFFF))
  | reflect.String =>
      Some (fun v => String.eqb (reflect.Value_String v) EmptyString)
  | _ => None
  end.

Definition dumpField {L : GoLib} (field : Value) (name : string) (level : nat)
  : Out :=
  match reflect.Value_MethodByName_String field with
  | Panics msg => panic msg
  | Returns (Some call) =>
      match call with
      | Panics msg => panic msg
      | Returns str =>
          if strings.HasSuffix str "Invalid" then done
          else printIndent level (name ++ ": " ++ str ++ strings.nl)
      end
  | Returns None =>
      match invalidValues (reflect.Value_Kind field) with
      | Some invalidFunc =>
          if invalidFunc field then done
          else printIndent level
                 (name ++ ": " ++ fmt.Sprint false field ++ strings.nl)
      | None =>
          printIndent level
            (name ++ ": " ++ fmt.Sprint true field ++ strings.nl)
      end
  end.

Definition exported {L : GoLib} (name : string) : Result bool :=
  let (r, l) := utf8.DecodeRune (bytes name) in
  if (r =? utf8.RuneError) && (l <=? 1) then Panics "unicode error"
  else Returns (IsUpper r).

(** [dumpRecursive] on the zero Value: [MethodByName] panics. *)
Definition dumpZero : Out :=
  panic "reflect: call of reflect.Value.MethodByName on zero Value".

(** The recursion is on the structure of the value.  A slice element goes
    through [reflect.Indirect] first; its three cases are spelled out so
    that every recursive call is on a part of [val]
    ([dumpRecursive_Indirect] below puts them back together). *)
Fixpoint dumpRecursive {L : GoLib} (val : Value) (name : string) (level : nat)
  {struct val} : Out :=
  match reflect.Value_MethodByName_String val with
  | Panics msg => panic msg
  | Returns (Some _) => dumpField val name level
  | Returns None =>
      match val with
      | VStruct _ _ fields =>
          printIndent level (name ++ ":" ++ strings.nl) ;;
          forFields
            (fun fname v =>
               match exported fname with
               | Panics msg => panic msg
               | Returns false => done
               | Returns true => dumpRecursive v fname (S level)
               end) fields ;;
          printIndent level ("---" ++ strings.nl)
      | VPtr _ None => done
      | VPtr _ (Some e) => dumpRecursive e name level
      | VSlice _ elems =>
          if (List.length elems =? 0)%nat then done else
          printIndent level
            (name ++ " (" ++ strconv.Itoa (List.length elems)
                  ++ " elems):" ++ strings.nl) ;;
          forElems
            (fun i e =>
               let name := "[" ++ strconv.Itoa i ++ "]" in
               match e with
               | VPtr _ None => dumpZero
               | VPtr _ (Some t) => dumpRecursive t name (S level)
               | _ => dumpRecursive e name (S level)
               end) 0%nat elems
      | _ => dumpField val name level
      end
  end.

(** One typed accessor call: [x, err = fitf.X()] and, when [err == nil],
    [data = reflect.ValueOf( *x )]. *)
Definition access (fitf : fit.File) (a : fit.Accessor)
  : list Event * (Value * error) :=
  ([EvCall a],
   match fit.get fitf a with
   | inl err => (reflect.Zero, Some err)
   | inr x => (ValueOf_deref x, None)
   end).

Definition getFileValue {L : GoLib} (fitf : fit.File)
  : list Event * (Value * error) :=
  match fit.Type_ fitf with
  | fit.FileTypeActivity => access fitf fit.Activity
  | fit.FileTypeDevice => access fitf fit.Device
  | fit.FileTypeSettings => access fitf fit.Settings
  | fit.FileTypeSport => access fitf fit.Sport
  | fit.FileTypeWorkout => access fitf fit.Workout
  | fit.FileTypeCourse => access fitf fit.Course
  | fit.FileTypeSchedules => access fitf fit.Schedules
  | fit.FileTypeWeight => access fitf fit.Weight
  | fit.FileTypeTotals => access fitf fit.Totals
  | fit.FileTypeGoals => access fitf fit.Goals
  | fit.FileTypeBloodPressure => access fitf fit.BloodPressure
  | fit.FileTypeMonitoringA => access fitf fit.MonitoringA
  | fit.FileTypeActivitySummary => access fitf fit.ActivitySummary
  | fit.FileTypeMonitoringDaily => access fitf fit.MonitoringDaily
  | fit.FileTypeMonitoringB => access fitf fit.MonitoringB
  | fit.FileTypeSegment => access fitf fit.Segment
  | fit.FileTypeSegmentList => access fitf fit.SegmentList
  | fit.FileTypeOther _ =>
      ([], (reflect.Zero,
            Some ("unknown filetype '"
                    ++ FileType_String (fit.Type_ fitf) ++ "'")))
  end.

Definition run {L : GoLib} (w : World) : Proc error :=
  if negb (List.length (Args w) =? 1)%nat then
    ret (Some "Expected a single argument: FILE")
  else
  let path := nth 0 (Args w) EmptyString in
  _ <- emit (EvOpen path) ;;;
  match Open w path with
  | inl err => ret (Some err)
  | inr f =>
      deferClose (
        _ <- emit EvDecode ;;;
        match Decode w f with
        | inl err => ret (Some err)
        | inr fitf =>
            _ <- print (FitDump.dumpRecursive (fit.value fitf) path 0) ;;;
            let (evs, r) := getFileValue fitf in
            let (body, err) := r in
            b <- (evs, Returns body) ;;;
            match err with
            | Some e => ret (Some e)
            | None =>
                _ <- print (FitDump.dumpRecursive b (Type_Name b) 0) ;;;
                ret None
            end
        end)
  end.

Definition main {L : GoLib} (w : World) : list Event :=
  let (evs, r) := run w in
  match r with
  | Returns None => (evs ++ [EvExit 0])%list
  | Returns (Some err) =>
      (evs ++ [EvStdout (err ++ strings.nl); EvExit 1])%list
  | Panics msg => (evs ++ crash msg)%list
  end.

End FitDump.

(** [for i, x := range xs { body }], from index [i]. *)
Definition forRange {A : Type} (body : nat -> A -> Out)
  : nat -> list A -> Out :=
  fix loop i xs :=
    match xs with
    | [] => done
    | x :: rest => body i x ;; loop (S i) rest
    end.

(** ** The program, second variant (lines 313-616): kind first *)

Module FitDumpAlt.

Definition printIndent : nat -> string -> Out := FitDump.printIndent.

Definition invalidValues : reflect.Kind -> option (Value -> bool) :=
  FitDump.invalidValues.

Definition dumpField {L : GoLib} (field : Value) (name : string) (level : nat)
  : Out :=
  match reflect.Value_Type_MethodByName_String field with
  | Panics msg => panic msg
  | Returns (Some call) =>
      match call with
      | Panics msg => panic msg
      | Returns str =>
          if strings.HasSuffix str "Invalid" then done
          else printIndent level (name ++ ": " ++ str ++ strings.nl)
      end
  | Returns None =>
      match invalidValues (reflect.Value_Kind field) with
      | Some invalidFunc =>
          if invalidFunc field then done
          else printIndent level
                 (name ++ ": " ++ fmt.Sprint false field ++ strings.nl)
      | None =>
          printIndent level
            (name ++ ": " ++ fmt.Sprint true field ++ strings.nl)
      end
  end.

(** [len(name) > 0 && strings.ToLower(name[:1]) == name[:1]]: the test
    under which a field is passed over. *)
Definition lowerInitial (name : string) : bool :=
  match name with
  | EmptyString => false
  | String c _ => String.eqb (strings.ToLower1 c) (String c EmptyString)
  end.

(** [dumpRecursive] on the zero Value: its kind is [Invalid], the default
    case hands it to [dumpField], where [Type] panics. *)
Definition dumpZero : Out :=
  panic "reflect: call of reflect.Value.Type on zero Value".

Fixpoint dumpRecursive {L : GoLib} (val : Value) (name : string) (level : nat)
  {struct val} : Out :=
  match val with
  | VStruct _ m fields =>
      match m with
      | Some call =>
          match call with
          | Panics msg => panic msg
          | Returns str =>
              printIndent level (name ++ ": " ++ str ++ strings.nl)
          end
      | None =>
          printIndent level (name ++ ":" ++ strings.nl) ;;
          forFields
            (fun fname v =>
               if lowerInitial fname then done
               else dumpRecursive v fname (S level)) fields
      end
  | VPtr _ None => done
  | VPtr _ (Some e) => dumpRecursive e name level
  | VSlice _ elems =>
      if (List.length elems =? 0)%nat then done else
      printIndent level
        (name ++ " (" ++ strconv.Itoa (List.length elems)
              ++ " elems):" ++ strings.nl) ;;
      forElems
        (fun i e =>
           let name := "[" ++ strconv.Itoa i ++ "]" in
           match e with
           | VPtr _ None => dumpZero
           | VPtr _ (Some t) => dumpRecursive t name (S level)
           | _ => dumpRecursive e name (S level)
           end) 0%nat elems
  | _ => dumpField val name level
  end.

(** One case of the switch in [run]: [x, err := fitf.X()], the wrapped
    error when [err != nil], else [data = reflect.ValueOf( *x )]. *)
Definition access (fitf : fit.File) (a : fit.Accessor)
  : list Event * (string + Value) :=
  ([EvCall a],
   match fit.get fitf a with
   | inl err => inl ("get file failed: " ++ err)
   | inr x => inr (ValueOf_deref x)
   end).

(** The switch on [fitf.Type()] inside [run]: the error [run] returns
    with, or [data]. *)
Definition run_switch {L : GoLib} (fitf : fit.File)
  : list Event * (string + Value) :=
  match fit.Type_ fitf with
  | fit.FileTypeActivity => access fitf fit.Activity
  | fit.FileTypeDevice => access fitf fit.Device
  | fit.FileTypeSettings => access fitf fit.Settings
  | fit.FileTypeSport => access fitf fit.Sport
  | fit.FileTypeWorkout => access fitf fit.Workout
  | fit.FileTypeCourse => access fitf fit.Course
  | fit.FileTypeSchedules => access fitf fit.Schedules
  | fit.FileTypeWeight => access fitf fit.Weight
  | fit.FileTypeTotals => access fitf fit.Totals
  | fit.FileTypeGoals => access fitf fit.Goals
  | fit.FileTypeBloodPressure => access fitf fit.BloodPressure
  | fit.FileTypeMonitoringA => access fitf fit.MonitoringA
  | fit.FileTypeActivitySummary => access fitf fit.ActivitySummary
  | fit.FileTypeMonitoringDaily => access fitf fit.MonitoringDaily
  | fit.FileTypeMonitoringB => access fitf fit.MonitoringB
  | fit.FileTypeSegment => access fitf fit.Segment
  | fit.FileTypeSegmentList => access fitf fit.SegmentList
  | fit.FileTypeOther _ =>
      ([], inl ("get file failed: Unknown filetype '"
                  ++ FileType_String (fit.Type_ fitf) ++ "'"))
  end.

(** The seven top-level dumps [run] starts with. *)
Definition dumpTop {L : GoLib} (fitf : fit.File) : Out :=
  dumpRecursive (fit.Header fitf) "Header" 0 ;;
  dumpRecursive (fit.CRC fitf) "File CRC" 0 ;;
  dumpRecursive (fit.FileId fitf) "FileId" 0 ;;
  dumpRecursive (fit.FileCreator fitf) "FileCreator" 0 ;;
  dumpRecursive (fit.TimestampCorrelation fitf) "TimestampCorrelation" 0 ;;
  dumpRecursive (fit.UnknownMessages fitf) "UnknownMessages" 0 ;;
  dumpRecursive (fit.UnknownFields fitf) "UnknownFields" 0.

Definition run {L : GoLib} (w : World) : Proc error :=
  if negb (List.length (Args w) =? 1)%nat then
    ret (Some "Expected a single argument: FILE")
  else
  let path := nth 0 (Args w) EmptyString in
  _ <- emit (EvOpen path) ;;;
  match Open w path with
  | inl err => ret (Some err)
  | inr f =>
      deferClose (
        _ <- emit EvDecode ;;;
        match Decode w f with
        | inl err => ret (Some err)
        | inr fitf =>
            _ <- print (dumpTop fitf) ;;;
            let (evs, r) := run_switch fitf in
            r' <- (evs, Returns r) ;;;
            match r' with
            | inl e => ret (Some e)
            | inr data =>
                _ <- print (dumpRecursive data (Type_Name data) 0) ;;;
                ret None
            end
        end)
  end.

Definition main {L : GoLib} (w : World) : list Event :=
  let (evs, r) := run w in
  match r with
  | Returns None => (evs ++ [EvExit 0])%list
  | Returns (Some err) =>
      (evs ++ [EvStdout (err ++ strings.nl); EvExit 1])%list
  | Panics msg => (evs ++ crash msg)%list
  end.

(** [dumpUnknownMessages] and [dumpUnknownFields].  The messages and
    fields are the library's; all the two functions do with one is print
    it under [%#v], so their type and that text are left open. *)
Section Unknown.

Variable UnknownMessage : Type.
Variable UnknownField : Type.
Variable GoString_Message : UnknownMessage -> string.
Variable GoString_Field : UnknownField -> string.

Definition dumpUnknownMessages (msgs : list UnknownMessage) : Out :=
  if (List.length msgs =? 0)%nat then done else
  (("Unknown Messages:" ++ strings.nl, Done) : Out) ;;
  forRange
    (fun i msg =>
       ("  [" ++ strconv.Itoa i ++ "] " ++ GoString_Message msg
             ++ strings.nl, Done)) 0%nat msgs.

Definition dumpUnknownFields (fields : list UnknownField) : Out :=
  if (List.length fields =? 0)%nat then done else
  (("Unknown Fields:" ++ strings.nl, Done) : Out) ;;
  forRange
    (fun i field =>
       ("  [" ++ strconv.Itoa i ++ "] " ++ GoString_Field field
             ++ strings.nl, Done)) 0%nat fields.

End Unknown.

Definition dumpFile {L : GoLib} (file : Value) : Out :=
  dumpRecursive file "File" 0.

End FitDumpAlt.


(** ** Yardsticks the theorems compare the program with *)

(** The sentinel table as documented: whether a value of a listed kind
    holds its kind's reserved bit pattern; [None] for every other kind. *)
Definition documentedSentinel (v : Value) : option bool :=
  match v with
  | VBool _ b => Some (negb b)
  | VInt reflect.KInt8 _ i => Some (i =? 0x7F)
  | VInt reflect.KInt16 _ i => Some (i =? 0x7FFF)
  | VInt reflect.KInt32 _ i => Some (i =? 0x7FFFFFFF)
  | VInt reflect.KInt64 _ i => Some (i =? 0x7FFFFFFFFFFFFFFF)
  | VUint reflect.KUint8 _ u => Some (u =? 0xFF)
  | VUint reflect.KUint16 _ u => Some (u =? 0xFFFF)
  | VUint reflect.KUint32 _ u => Some (u =? 0xFFFFFFFF)
  | VUint reflect.KUint64 _ u => Some (u =? 0xFFFFFFFFFFFFFFFF)
  | VFloat32 _ bits => Some (bits =? 0xFFFFFFFF)
  | VFloat64 _ bits => Some (bits =? 0xFFFFFFFFFFFFFFFF)
  | VString _ s => Some (String.eqb s EmptyString)
  | _ => None
  end.

Definition isFloat (v : Value) : bool :=
  match v with
  | VFloat32 _ _ | VFloat64 _ _ => true
  | _ => false
  end.

(** The accessor that carries the same name as a tag. *)
Definition matching (t : fit.FileType) : option fit.Accessor :=
  match t with
  | fit.FileTypeActivity => Some fit.Activity
  | fit.FileTypeDevice => Some fit.Device
  | fit.FileTypeSettings => Some fit.Settings
  | fit.FileTypeSport => Some fit.Sport
  | fit.FileTypeWorkout => Some fit.Workout
  | fit.FileTypeCourse => Some fit.Course
  | fit.FileTypeSchedules => Some fit.Schedules
  | fit.FileTypeWeight => Some fit.Weight
  | fit.FileTypeTotals => Some fit.Totals
  | fit.FileTypeGoals => Some fit.Goals
  | fit.FileTypeBloodPressure => Some fit.BloodPressure
  | fit.FileTypeMonitoringA => Some fit.MonitoringA
  | fit.FileTypeMonitoringDaily => Some fit.MonitoringDaily
  | fit.FileTypeMonitoringB => Some fit.MonitoringB
  | fit.FileTypeActivitySummary => Some fit.ActivitySummary
  | fit.FileTypeSegment => Some fit.Segment
  | fit.FileTypeSegmentList => Some fit.SegmentList
  | fit.FileTypeOther _ => None
  end.

(** Every byte of a text is a byte. *)
Definition byte_range (p : list Z) : Prop := Forall (fun b => 0 <= b < 256) p.

(** The first rune of a name is an upper-case letter. *)
Definition capitalInitial {L : GoLib} (name : string) : bool :=
  IsUpper (fst (utf8.DecodeRune (bytes name))).

(** The outputs of a list of printing calls, one after the other. *)
Fixpoint seqAll (os : list Out) : Out :=
  match os with
  | [] => done
  | o :: rest => o ;; seqAll rest
  end.

(** The elements of a list paired with their positions, from [i]. *)
Fixpoint indexed {A} (i : nat) (l : list A) : list (nat * A) :=
  match l with
  | [] => []
  | a :: rest => (i, a) :: indexed (S i) rest
  end.

(** The [String] method, if any, returns when called. *)
Definition returns (m : StringMethod) : bool :=
  match m with
  | Some (Panics _) => false
  | _ => true
  end.

(** A value the printer walks to its end: every [String] method in it
    returns, every field name starts with a well-formed rune, and no
    element of a slice is a nil pointer. *)
Fixpoint walkable (v : Value) : bool :=
  match v with
  | reflect.Zero => false
  | VStruct _ m fields =>
      returns m
      && forallb (fun nv : string * Value =>
                    let (n, x) := nv in
                    utf8.WellFormedHead (bytes n) && walkable x) fields
  | VPtr m None => returns m
  | VPtr m (Some t) => returns m && walkable t
  | VSlice m elems =>
      returns m
      && forallb (fun e =>
                    match e with
                    | VPtr _ None => false
                    | VPtr _ (Some t) => walkable t
                    | _ => walkable e
                    end) elems
  | VBool m _ | VInt _ m _ | VUint _ m _ | VFloat32 m _ | VFloat64 m _
  | VString m _ | reflect.VOther _ m _ => returns m
  end.


(** Both variants dump a value to the end, under any name and indent. *)
Definition dumpsDone {L : GoLib} (v : Value) : Prop :=
  forall name level,
    out_status (FitDump.dumpRecursive v name level) = Done
    /\ out_status (FitDumpAlt.dumpRecursive v name level) = Done.

(** Induction on values, with the hypothesis for every value below. *)
Fixpoint Value_nested_ind (P : Value -> Prop)
  (HZero : P reflect.Zero)
  (HBool : forall m b, P (VBool m b))
  (HInt : forall k m i, P (VInt k m i))
  (HUint : forall k m u, P (VUint k m u))
  (HF32 : forall m bits, P (VFloat32 m bits))
  (HF64 : forall m bits, P (VFloat64 m bits))
  (HString : forall m s, P (VString m s))
  (HStruct : forall t m fields,
      Forall (fun nv => P (snd nv)) fields -> P (VStruct t m fields))
  (HNil : forall m, P (VPtr m None))
  (HPtr : forall m e, P e -> P (VPtr m (Some e)))
  (HSlice : forall m elems, Forall P elems -> P (VSlice m elems))
  (HOther : forall k m text, P (reflect.VOther k m text))
  (v : Value) {struct v} : P v :=
  let rec := Value_nested_ind P HZero HBool HInt HUint HF32 HF64 HString
               HStruct HNil HPtr HSlice HOther in
  match v with
  | reflect.Zero => HZero
  | VBool m b => HBool m b
  | VInt k m i => HInt k m i
  | VUint k m u => HUint k m u
  | VFloat32 m bits => HF32 m bits
  | VFloat64 m bits => HF64 m bits
  | VString m s => HString m s
  | VStruct t m fields =>
      HStruct t m fields
        ((fix all (fs : list (string * Value))
            : Forall (fun nv => P (snd nv)) fs :=
            match fs with
            | [] => Forall_nil _
            | nv :: rest => Forall_cons nv (rec (snd nv)) (all rest)
            end) fields)
  | VPtr m None => HNil m
  | VPtr m (Some e) => HPtr m e (rec e)
  | VSlice m elems =>
      HSlice m elems
        ((fix all (es : list Value) : Forall P es :=
            match es with
            | [] => Forall_nil _
            | e :: rest => Forall_cons e (rec e) (all rest)
            end) elems)
  | reflect.VOther k m text => HOther k m text
  end.

(** The text is empty or starts with [p]. *)
Definition emptyOrBegins (p s : string) : Prop :=
  s = EmptyString \/ exists rest, s = p ++ rest.

(** The text is made of whole lines: it is empty or ends in a newline. *)
Definition wholeLines (s : string) : Prop :=
  s = EmptyString \/ exists pre, s = pre ++ strings.nl.

(** How often a process closes its file. *)
Fixpoint closes (evs : list Event) : nat :=
  match evs with
  | [] => 0
  | EvClose :: rest => S (closes rest)
  | _ :: rest => closes rest
  end.

(** A value made of scalars, pointers and slices only, with no [String]
    method on a pointer or a slice and no nil pointer in a slice. *)
Fixpoint structFree (v : Value) : bool :=
  match v with
  | reflect.Zero => false
  | VStruct _ _ _ => false
  | VPtr None None => true
  | VPtr None (Some t) => structFree t
  | VPtr (Some _) _ => false
  | VSlice None elems =>
      forallb (fun e =>
                 match e with
                 | VPtr _ None => false
                 | VPtr _ (Some t) => structFree t
                 | _ => structFree e
                 end) elems
  | VSlice (Some _) _ => false
  | _ => true
  end.





(** A small decoded file and its surroundings, for running the program. *)
Definition sampleSub : fit.Sub :=
  fit.mkSub "ActivityFile" None
    [("Activity", VPtr None None);
     ("Sessions", VSlice None
        [VPtr None (Some (VStruct "SessionMsg" None
           [("TotalCalories", VUint reflect.KUint16 None 0xFFFF);
            ("AvgHeartRate", VUint reflect.KUint8 None 142)]))])].

Definition sampleFile (t : fit.FileType) : fit.File :=
  fit.mkFile t
    (VStruct "File" None
       [("Header", VStruct "Header" None
           [("Size", VUint reflect.KUint8 None 14)]);
        ("CRC", VUint reflect.KUint16 None 0x1234);
        ("FileCreator", VPtr None None);
        ("activity", VPtr None None)])
    (VStruct "Header" None [("Size", VUint reflect.KUint8 None 14)])
    (VUint reflect.KUint16 None 0x1234)
    (VStruct "FileIdMsg" None [])
    (VPtr None None) (VPtr None None) (VSlice None []) (VSlice None [])
    (fun a => match a with
              | fit.Activity => inr sampleSub
              | _ => inl "fit: wrong file type"
              end).

Definition sampleWorld (t : fit.FileType) : World :=
  mkWorld ["ride.fit"]
    (fun path => if String.eqb path "ride.fit" then inr [0x0E; 0x10]
                 else inl ("open " ++ path ++ ": no such file or directory"))
    (fun _ => inr (sampleFile t)).

(** One choice of the library behaviour left open, for running the
    program on concrete values. *)
Definition plainLib : GoLib := {|
  FormatFloat := fun _ _ => "1";
  Sprint_composite := fun _ _ => "{}";
  isUpperExcludingLatin := fun _ => false;
  FileType_String := fun _ => "FileType(40)"
|}.

(** * Properties *)

(** ** The program on small inputs *)

Example DecodeRune_two_bytes :
  utf8.DecodeRune [0xC3; 0xA9; 0x61] = (0xE9, 2).
Proof. reflexivity. Qed.

Example DecodeRune_replacement_character :
  utf8.DecodeRune [0xEF; 0xBF; 0xBD] = (utf8.RuneError, 3).
Proof. reflexivity. Qed.

Example DecodeRune_truncated :
  utf8.DecodeRune [0xC3] = (utf8.RuneError, 1).
Proof. reflexivity. Qed.

Example exported_samples :
  FitDump.exported (L := plainLib) "Header" = Returns true
  /\ FitDump.exported (L := plainLib) "crc" = Returns false
  /\ FitDump.exported (L := plainLib) "_pad" = Returns false
  /\ FitDump.exported (L := plainLib) "" = Panics "unicode error".
Proof. repeat split. Qed.

Example HasSuffix_samples :
  strings.HasSuffix "SportInvalid" "Invalid" = true
  /\ strings.HasSuffix "Invalid" "Invalid" = true
  /\ strings.HasSuffix "valid" "Invalid" = false
  /\ strings.HasSuffix "Invalid " "Invalid" = false.
Proof. repeat split. Qed.

Example dump_session :
  FitDump.dumpRecursive (L := plainLib) (ValueOf_deref sampleSub) "A" 0
  = ("A:" ++ strings.nl
       ++ strings.tab ++ "Sessions (1 elems):" ++ strings.nl
       ++ strings.tab ++ strings.tab ++ "[0]:" ++ strings.nl
       ++ strings.tab ++ strings.tab ++ strings.tab
       ++ "AvgHeartRate: 142" ++ strings.nl
       ++ strings.tab ++ strings.tab ++ "---" ++ strings.nl
       ++ "---" ++ strings.nl, Done).
Proof. reflexivity. Qed.

Example run_activity_file :
  let evs := FitDump.main (L := plainLib) (sampleWorld fit.FileTypeActivity) in
  exitCode evs = Some 0 /\ calls evs = [fit.Activity]
  /\ stderr evs = EmptyString.
Proof. repeat split. Qed.

Example run_mismatched_tag :
  FitDump.main (L := plainLib) (sampleWorld fit.FileTypeDevice)
  = [EvOpen "ride.fit"; EvDecode;
     EvStdout (out_text (FitDump.dumpRecursive (L := plainLib)
                           (fit.value (sampleFile fit.FileTypeDevice))
                           "ride.fit" 0));
     EvCall fit.Device; EvClose;
     EvStdout ("fit: wrong file type" ++ strings.nl); EvExit 1].
Proof. reflexivity. Qed.

Example nil_element_panics :
  FitDump.dumpRecursive (L := plainLib) (VSlice None [VPtr None None]) "S" 0
  = ("S (1 elems):" ++ strings.nl,
     Panic "reflect: call of reflect.Value.MethodByName on zero Value").
Proof. reflexivity. Qed.

(** ** Sequencing *)

Lemma append_empty_r (s : string) : s ++ EmptyString = s.
Proof. induction s as [|c s IH]; cbn; [reflexivity | now rewrite IH]. Qed.

Lemma append_assoc' (a b c : string) : (a ++ b) ++ c = a ++ (b ++ c).
Proof. induction a as [|x a IH]; cbn; [reflexivity | now rewrite IH]. Qed.

Lemma andThen_done_l (o : Out) : done ;; o = o.
Proof. destruct o; reflexivity. Qed.

Lemma andThen_done_r (o : Out) : o ;; done = o.
Proof.
  destruct o as [s [|msg]]; cbn; [now rewrite append_empty_r | reflexivity].
Qed.

Lemma andThen_assoc (a b c : Out) : (a ;; b) ;; c = a ;; (b ;; c).
Proof.
  destruct a as [sa [|ma]], b as [sb [|mb]], c as [sc st]; cbn;
    now rewrite ?append_assoc'.
Qed.

Lemma andThen_panic_l (msg : string) (o : Out) : panic msg ;; o = panic msg.
Proof. reflexivity. Qed.

(** ** UTF-8 decoding against the well-formedness table *)

Ltac cmp_cases :=
  repeat match goal with
  | |- context [Z.ltb ?a ?b] => destruct (Z.ltb_spec a b); try (exfalso; lia)
  | |- context [Z.leb ?a ?b] => destruct (Z.leb_spec a b); try (exfalso; lia)
  | |- context [Z.eqb ?a ?b] => destruct (Z.eqb_spec a b); try (exfalso; lia)
  end.

Ltac decide_cmp :=
  repeat match goal with
  | |- context [Z.leb ?a ?b] =>
      first [ replace (Z.leb a b) with true by (symmetry; apply Z.leb_le; lia)
            | replace (Z.leb a b) with false by (symmetry; apply Z.leb_gt; lia) ]
  | |- context [Z.ltb ?a ?b] =>
      first [ replace (Z.ltb a b) with true by (symmetry; apply Z.ltb_lt; lia)
            | replace (Z.ltb a b) with false by (symmetry; apply Z.ltb_ge; lia) ]
  | |- context [Z.eqb ?a ?b] =>
      first [ replace (Z.eqb a b) with true by (symmetry; apply Z.eqb_eq; lia)
            | replace (Z.eqb a b) with false by (symmetry; apply Z.eqb_neq; lia) ]
  end.

Ltac inv_range :=
  repeat match goal with
  | H : Forall _ (_ :: _) |- _ => inversion H; clear H; subst
  end.

Ltac bools := cbn [andb orb negb fst snd]; cbv iota beta.

(** The constants that depend on the table entry [X] only. *)
Ltac norm_first X :=
  let a := eval vm_compute in (utf8.as_ <=? X) in
  change (utf8.as_ <=? X) with a;
  let s := eval vm_compute in (Z.land X 7) in
  change (Z.land X 7) with s;
  let r := eval vm_compute in (utf8.acceptRanges (Z.shiftr X 4)) in
  change (utf8.acceptRanges (Z.shiftr X 4)) with r;
  let m := eval vm_compute in (- Z.land X 1) in
  change (- Z.land X 1) with m.

Lemma byte_val_range (c : ascii) : 0 <= byte_val c < 256.
Proof.
  unfold byte_val. pose proof (N_ascii_bounded c). lia.
Qed.

Lemma bytes_range (s : string) : byte_range (bytes s).
Proof.
  induction s as [|c s IH]; cbn; constructor; auto using byte_val_range.
Qed.

Lemma first_cases (b : Z) :
  0 <= b < 256 ->
  (b < 0x80 /\ utf8.first b = utf8.as_)
  \/ ((0x80 <= b < 0xC2 \/ 0xF5 <= b) /\ utf8.first b = utf8.xx)
  \/ (0xC2 <= b < 0xE0 /\ utf8.first b = utf8.s1)
  \/ (b = 0xE0 /\ utf8.first b = utf8.s2)
  \/ ((0xE1 <= b < 0xED \/ 0xEE <= b < 0xF0) /\ utf8.first b = utf8.s3)
  \/ (b = 0xED /\ utf8.first b = utf8.s4)
  \/ (b = 0xF0 /\ utf8.first b = utf8.s5)
  \/ (0xF1 <= b < 0xF4 /\ utf8.first b = utf8.s6)
  \/ (b = 0xF4 /\ utf8.first b = utf8.s7).
Proof.
  intros Hb. unfold utf8.first. cmp_cases;
    repeat (first [left; split; [lia | reflexivity] | right]).
  all: split; [lia | reflexivity].
Qed.

(** [DecodeRune] agrees with the table: on a well-formed head it consumes
    at least one byte and a single byte is ASCII; on anything else it
    answers [RuneError] with a width of 0 or 1. *)
Lemma DecodeRune_spec (p : list Z) :
  byte_range p ->
  let (r, l) := utf8.DecodeRune p in
  if utf8.WellFormedHead p then 1 <= l /\ (l = 1 -> 0 <= r < 0x80)
  else r = utf8.RuneError /\ 0 <= l <= 1.
Proof.
  intros Hp.
  destruct p as [|b0 t]; [cbn; lia|].
  inversion Hp as [|? ? Hb0 Ht]; subst.
  unfold utf8.DecodeRune. cbv zeta.
  replace (Z.of_nat (List.length (b0 :: t)) <? 1) with false
    by (symmetry; apply Z.ltb_ge; cbn [List.length]; lia).
  unfold utf8.at_. cbn [nth].
  unfold utf8.WellFormedHead, utf8.lead2, utf8.lead3, utf8.lead4, utf8.cont,
    utf8.within, utf8.locb, utf8.hicb.
  destruct (first_cases b0 Hb0)
    as [[H0 E]|[[H0 E]|[[H0 E]|[[H0 E]|[[H0 E]|[[H0 E]|[[H0 E]|[[H0 E]|[H0 E]
       ]]]]]]]];
    rewrite !E;
    match goal with
    | |- context [utf8.as_ <=? ?X] => norm_first X
    end; bools.
  1: { rewrite Z.ldiff_0_r, Z.land_0_r, Z.lor_0_r. decide_cmp. bools. lia. }
  1: { rewrite Z.ldiff_m1_r, Z.land_m1_r, Z.lor_0_l.
       destruct H0 as [H0|H0]; decide_cmp; bools;
         destruct t as [|b1 [|b2 [|b3 t3]]]; bools;
         split; solve [reflexivity | lia]. }
  all: try (destruct H0 as [H0|H0]); decide_cmp; bools;
    destruct t as [|b1 [|b2 [|b3 t3]]]; inv_range; cbn [List.length nth];
    cmp_cases; bools;
    first [ split; [reflexivity | lia] | split; [lia | intros; lia] ].
Qed.

Lemma Valid_WellFormedHead (p : list Z) :
  p <> [] -> utf8.Valid p = true -> utf8.WellFormedHead p = true.
Proof.
  intros Hne Hv. destruct p as [|b0 t]; [congruence|].
  cbn in Hv |- *.
  destruct (utf8.within 0 127 b0); [reflexivity|]. cbn.
  destruct t as [|b1 t1]; [discriminate|].
  destruct (utf8.lead2 b0 b1); [reflexivity|]. cbn.
  destruct t1 as [|b2 t2]; [discriminate|].
  destruct (utf8.lead3 b0 b1 b2); [reflexivity|]. cbn.
  destruct t2 as [|b3 t3]; [discriminate|].
  now apply andb_true_iff in Hv.
Qed.

Lemma bytes_nil (s : string) : bytes s = [] -> s = EmptyString.
Proof. destruct s; [reflexivity | discriminate]. Qed.

(** [exported] in terms of the table. *)
Lemma exported_spec {L : GoLib} (name : string) :
  FitDump.exported name =
  if utf8.WellFormedHead (bytes name) then Returns (capitalInitial name)
  else Panics "unicode error".
Proof.
  unfold FitDump.exported, capitalInitial.
  pose proof (DecodeRune_spec (bytes name) (bytes_range name)) as D.
  destruct (utf8.DecodeRune (bytes name)) as [r l]. cbn [fst].
  destruct (utf8.WellFormedHead (bytes name)).
  - destruct D as [D1 D2].
    destruct (Z.leb_spec l 1) as [Hl|Hl].
    + assert ((r =? utf8.RuneError) = false) as ->
        by (apply Z.eqb_neq; unfold utf8.RuneError; lia).
      reflexivity.
    + now rewrite andb_false_r.
  - destruct D as [-> D2].
    rewrite Z.eqb_refl.
    now replace (l <=? 1) with true by (symmetry; apply Z.leb_le; lia).
Qed.

(** C10.  A non-empty name that is valid UTF-8 never reaches the panic of
    [exported]: the call returns whether the first rune is upper case.
    The panic is reached only by the empty name or by a name whose first
    bytes are not a well-formed UTF-8 sequence. *)
Theorem exported_panics_only_on_malformed_name {L : GoLib} (name : string) :
  (name <> EmptyString -> utf8.Valid (bytes name) = true ->
   FitDump.exported name = Returns (capitalInitial name))
  /\ (forall msg, FitDump.exported name = Panics msg ->
      name = EmptyString \/ utf8.WellFormedHead (bytes name) = false).
Proof.
  rewrite exported_spec. split.
  - intros Hne Hv.
    rewrite Valid_WellFormedHead; auto.
    intros E. apply Hne. now apply bytes_nil.
  - intros msg E. right.
    destruct (utf8.WellFormedHead (bytes name)); [discriminate | reflexivity].
Qed.

Lemma exported_panics_only_on_malformed_name_witness :
  FitDump.exported (L := plainLib) "Header" = Returns true.
Proof.
  refine (proj1 (exported_panics_only_on_malformed_name (L := plainLib)
                   "Header") _ _).
  - discriminate.
  - reflexivity.
Defined.

(** The panic is really there: the empty name and a name starting with a
    stray continuation byte both reach it. *)
Lemma exported_panics_on_malformed_head {L : GoLib} (name : string) :
  utf8.WellFormedHead (bytes name) = false ->
  FitDump.exported name = Panics "unicode error".
Proof. intros E. now rewrite exported_spec, E. Qed.

(** ** The scalar rule and the sentinel table *)

Lemma SFeqb_nan_r (f : spec_float) : SFeqb f S754_nan = false.
Proof. destruct f; reflexivity. Qed.

Lemma float_sentinels_are_nan :
  math.Float32frombits 0xFFFFFFFF = S754_nan
  /\ math.Float64frombits 0xFFFFFFFFFFFFFFFF = S754_nan.
Proof. split; reflexivity. Qed.

(** The float predicates of the table compare with a NaN and so hold of
    no value at all. *)
Lemma float_predicates_never_hold (v fv : Value) (f : Value -> bool) :
  isFloat v = true ->
  FitDump.invalidValues (reflect.Value_Kind v) = Some f ->
  f fv = false.
Proof.
  intros Hf Hk. destruct v; try discriminate; cbn in Hk;
    injection Hk as <-; apply SFeqb_nan_r.
Qed.

(** For a field without a [String] method whose kind is in the table and
    is not a float, [dumpField] follows the documented table: nothing at
    the sentinel, one line with the value otherwise. *)
Lemma dumpField_follows_table {L : GoLib} (v : Value) (b : bool)
      (name : string) (level : nat) :
  reflect.stringMethod v = None ->
  isFloat v = false ->
  documentedSentinel v = Some b ->
  let line := FitDump.printIndent level
                (name ++ ": " ++ fmt.Sprint false v ++ strings.nl) in
  FitDump.dumpField v name level = (if b then done else line)
  /\ FitDumpAlt.dumpField v name level = (if b then done else line).
Proof.
  intros Hm Hf Hs.
  destruct v as [|m x|k m i|k m u|m bits|m bits|m s|t m fs|m e|m es|k m txt];
    try discriminate; cbn in Hm; subst m;
    try destruct k; try discriminate; cbn in Hs; injection Hs as <-;
    unfold FitDump.dumpField, FitDumpAlt.dumpField; cbn;
    try (destruct x; cbn); auto.
Qed.

(** A float field without a [String] method is printed whatever its bits. *)
Lemma dumpField_float_always_printed {L : GoLib} (v : Value)
      (name : string) (level : nat) :
  reflect.stringMethod v = None ->
  isFloat v = true ->
  let line := FitDump.printIndent level
                (name ++ ": " ++ fmt.Sprint false v ++ strings.nl) in
  FitDump.dumpField v name level = line
  /\ FitDumpAlt.dumpField v name level = line.
Proof.
  intros Hm Hf.
  destruct v; try discriminate; cbn in Hm; subst m;
    unfold FitDump.dumpField, FitDumpAlt.dumpField;
    cbn [reflect.Value_MethodByName_String
           reflect.Value_Type_MethodByName_String reflect.stringMethod
           reflect.Value_Kind FitDump.invalidValues FitDumpAlt.invalidValues];
    rewrite SFeqb_nan_r; auto.
Qed.

(** C1.  The float rows of the sentinel table never fire: a float32 or
    float64 field holding the all-bits-one pattern is printed, as
    [<name>: NaN], by [dumpField] in both variants. *)
Theorem dumpField_prints_float_sentinel {L : GoLib}
        (name : string) (level : nat) :
  let line := FitDump.printIndent level (name ++ ": NaN" ++ strings.nl) in
  documentedSentinel (VFloat32 None 0xFFFFFFFF) = Some true
  /\ documentedSentinel (VFloat64 None 0xFFFFFFFFFFFFFFFF) = Some true
  /\ FitDump.dumpField (VFloat32 None 0xFFFFFFFF) name level = line
  /\ FitDump.dumpField (VFloat64 None 0xFFFFFFFFFFFFFFFF) name level = line
  /\ FitDumpAlt.dumpField (VFloat32 None 0xFFFFFFFF) name level = line
  /\ FitDumpAlt.dumpField (VFloat64 None 0xFFFFFFFFFFFFFFFF) name level
     = line.
Proof.
  cbv zeta. repeat split; reflexivity.
Qed.

(** ** The [String] rule *)

(** In the first variant a value with a [String] method goes to
    [dumpField] whatever its kind. *)
Lemma dumpRecursive_stringer {L : GoLib} (val : Value) (call : Result string)
      (name : string) (level : nat) :
  reflect.stringMethod val = Some call ->
  FitDump.dumpRecursive val name level = FitDump.dumpField val name level.
Proof.
  intros Hm. destruct val; cbn in Hm; try discriminate; subst m; reflexivity.
Qed.

(** In the first variant, and in [dumpField] of the second, a rendered text
    ending in [Invalid] silences the value, whatever its kind and its
    bits. *)
Lemma stringer_invalid_suppressed {L : GoLib} (val : Value) (str : string)
      (name : string) (level : nat) :
  reflect.stringMethod val = Some (Returns str) ->
  strings.HasSuffix str "Invalid" = true ->
  FitDump.dumpRecursive val name level = done
  /\ FitDump.dumpField val name level = done
  /\ FitDumpAlt.dumpField val name level = done.
Proof.
  intros Hm Hs.
  rewrite (dumpRecursive_stringer val _ name level Hm).
  unfold FitDump.dumpField, FitDumpAlt.dumpField.
  destruct val; cbn in Hm; try discriminate; subst m; cbn;
    rewrite Hs; auto.
Qed.

(** C2.  The second variant's [dumpRecursive] prints a struct that has a
    [String] method without looking at the rendered text: a struct
    rendering as [Invalid] yields the line [<name>: Invalid]. *)
Theorem alt_dumpRecursive_prints_invalid_struct {L : GoLib}
        (tname : string) (fields : list (string * Value))
        (name : string) (level : nat) :
  strings.HasSuffix "Invalid" "Invalid" = true
  /\ FitDumpAlt.dumpRecursive
       (VStruct tname (Some (Returns "Invalid")) fields) name level
     = FitDumpAlt.printIndent level (name ++ ": Invalid" ++ strings.nl)
  /\ FitDump.dumpRecursive
       (VStruct tname (Some (Returns "Invalid")) fields) name level
     = done.
Proof. repeat split; reflexivity. Qed.

(** ** The selector *)


(** What the selector does, tag by tag, in both variants. *)
Lemma getFileValue_by_tag {L : GoLib} (fitf : fit.File) :
  FitDump.getFileValue fitf =
  match matching (fit.Type_ fitf) with
  | Some a => FitDump.access fitf a
  | None =>
      ([], (reflect.Zero,
            Some ("unknown filetype '"
                    ++ FileType_String (fit.Type_ fitf) ++ "'")))
  end.
Proof.
  unfold FitDump.getFileValue. destruct (fit.Type_ fitf); reflexivity.
Qed.

Lemma run_switch_by_tag {L : GoLib} (fitf : fit.File) :
  FitDumpAlt.run_switch fitf =
  match matching (fit.Type_ fitf) with
  | Some a => FitDumpAlt.access fitf a
  | None =>
      ([], inl ("get file failed: Unknown filetype '"
                  ++ FileType_String (fit.Type_ fitf) ++ "'"))
  end.
Proof.
  unfold FitDumpAlt.run_switch. destruct (fit.Type_ fitf); reflexivity.
Qed.



(** C4.  For a tag outside the seventeen known ones the selector calls no
    accessor and fails with the unknown-file-type error. *)
Theorem selector_rejects_unknown_tag {L : GoLib} (fitf : fit.File) :
  matching (fit.Type_ fitf) = None ->
  FitDump.getFileValue fitf
  = ([], (reflect.Zero,
          Some ("unknown filetype '"
                  ++ FileType_String (fit.Type_ fitf) ++ "'")))
  /\ FitDumpAlt.run_switch fitf
     = ([], inl ("get file failed: Unknown filetype '"
                   ++ FileType_String (fit.Type_ fitf) ++ "'"))
  /\ calls (fst (FitDump.getFileValue fitf)) = []
  /\ calls (fst (FitDumpAlt.run_switch fitf)) = [].
Proof.
  intros Hm. rewrite getFileValue_by_tag, run_switch_by_tag, Hm.
  repeat split.
Qed.

Lemma selector_rejects_unknown_tag_witness :
  FitDump.getFileValue (L := plainLib) (sampleFile (fit.FileTypeOther 40))
  = ([], (reflect.Zero, Some "unknown filetype 'FileType(40)'")).
Proof.
  refine (proj1 (selector_rejects_unknown_tag (L := plainLib)
                   (sampleFile (fit.FileTypeOther 40)) _)).
  reflexivity.
Defined.

(** ** The tree printer: loops as lists *)

Lemma forElems_ext (f g : nat -> Value -> Out) (es : list Value) (i : nat) :
  (forall j e, In e es -> f j e = g j e) ->
  forElems f i es = forElems g i es.
Proof.
  revert i. induction es as [|e es IH]; intros i Hfg; cbn; [reflexivity|].
  rewrite Hfg by (now left). f_equal. apply IH. intros j e' He'.
  apply Hfg. now right.
Qed.

Lemma forElems_seqAll (f : nat -> Value -> Out) (es : list Value) (i : nat) :
  forElems f i es = seqAll (map (fun ie => f (fst ie) (snd ie)) (indexed i es)).
Proof.
  revert i. induction es as [|e es IH]; intros i; cbn; [reflexivity|].
  now rewrite IH.
Qed.

Lemma forFields_seqAll (f : string -> Value -> Out)
      (fs : list (string * Value)) :
  forFields f fs = seqAll (map (fun nv => f (fst nv) (snd nv)) fs).
Proof.
  induction fs as [|[n v] fs IH]; cbn; [reflexivity | now rewrite IH].
Qed.

Lemma seqAll_skip (f : string * Value -> Out) (keep : string * Value -> bool)
      (fs : list (string * Value)) :
  seqAll (map (fun nv => if keep nv then f nv else done) fs)
  = seqAll (map f (filter keep fs)).
Proof.
  induction fs as [|nv fs IH]; cbn; [reflexivity|].
  destruct (keep nv); cbn; rewrite IH; [reflexivity | apply andThen_done_l].
Qed.

(** The three cases of a slice element are [reflect.Indirect] followed by
    the recursive call. *)
Lemma dumpRecursive_Indirect {L : GoLib} (e : Value) (name : string)
      (level : nat) :
  match e with
  | VPtr _ None => FitDump.dumpZero
  | VPtr _ (Some t) => FitDump.dumpRecursive t name level
  | _ => FitDump.dumpRecursive e name level
  end = FitDump.dumpRecursive (reflect.Indirect e) name level.
Proof. destruct e as [| | | | | | | |m [t|]| |]; reflexivity. Qed.

Lemma alt_dumpRecursive_Indirect {L : GoLib} (e : Value) (name : string)
      (level : nat) :
  match e with
  | VPtr _ None => FitDumpAlt.dumpZero
  | VPtr _ (Some t) => FitDumpAlt.dumpRecursive t name level
  | _ => FitDumpAlt.dumpRecursive e name level
  end = FitDumpAlt.dumpRecursive (reflect.Indirect e) name level.
Proof. destruct e as [| | | | | | | |m [t|]| |]; reflexivity. Qed.

(** ** Pointers *)

(** C5.  A pointer whose type has no [String] method is
    transparent: nothing for a nil pointer, otherwise exactly the dump of
    the pointee under the same name and indent.  The second variant treats
    every pointer so, whatever its methods. *)
Theorem pointer_without_String_is_transparent {L : GoLib}
        (elem : option Value) (name : string) (level : nat) :
  FitDump.dumpRecursive (VPtr None elem) name level
  = match elem with
    | None => done
    | Some v => FitDump.dumpRecursive v name level
    end
  /\ forall m,
      FitDumpAlt.dumpRecursive (VPtr m elem) name level
      = match elem with
        | None => done
        | Some v => FitDumpAlt.dumpRecursive v name level
        end.
Proof. destruct elem; split; reflexivity. Qed.

(** C5 does not extend to every pointer: in the first variant a pointer
    whose type has a [String] method is printed through it, nil or not. *)
Lemma pointer_with_String_is_not_transparent :
  FitDump.dumpRecursive (L := plainLib)
    (VPtr (Some (Returns "T(1)")) (Some (VStruct "T" None []))) "P" 0
  <> FitDump.dumpRecursive (L := plainLib) (VStruct "T" None []) "P" 0
  /\ out_text (FitDump.dumpRecursive (L := plainLib)
                 (VPtr (Some (Returns "<nil>")) None) "P" 0)
     <> EmptyString.
Proof. split; vm_compute; discriminate. Qed.

(** ** Slices *)

(** C6.  A slice (in the first variant: one whose type has no
    [String] method) prints nothing when empty; otherwise a header with its
    length and then, in order, the dump of each element after
    [reflect.Indirect], labelled with its zero-based index, one level
    deeper. *)
Theorem slice_dump_is_header_then_elements {L : GoLib}
        (elems : list Value) (name : string) (level : nat) :
  elems <> [] ->
  FitDump.dumpRecursive (VSlice None elems) name level
  = FitDump.printIndent level
      (name ++ " (" ++ strconv.Itoa (List.length elems) ++ " elems):"
            ++ strings.nl) ;;
    seqAll (map (fun ie =>
                   FitDump.dumpRecursive (reflect.Indirect (snd ie))
                     ("[" ++ strconv.Itoa (fst ie) ++ "]") (S level))
                (indexed 0 elems))
  /\ (forall m,
      FitDumpAlt.dumpRecursive (VSlice m elems) name level
      = FitDumpAlt.printIndent level
          (name ++ " (" ++ strconv.Itoa (List.length elems) ++ " elems):"
                ++ strings.nl) ;;
        seqAll (map (fun ie =>
                       FitDumpAlt.dumpRecursive (reflect.Indirect (snd ie))
                         ("[" ++ strconv.Itoa (fst ie) ++ "]") (S level))
                    (indexed 0 elems)))
  /\ FitDump.dumpRecursive (VSlice None []) name level = done
  /\ (forall m, FitDumpAlt.dumpRecursive (VSlice m []) name level = done).
Proof.
  intros Hne.
  assert ((List.length elems =? 0)%nat = false) as Hlen
    by (destruct elems; [congruence | reflexivity]).
  split; [|split; [intros m|split; [|intros m]]]; try reflexivity;
    cbn [FitDump.dumpRecursive FitDumpAlt.dumpRecursive
           reflect.Value_MethodByName_String reflect.stringMethod];
    rewrite Hlen; f_equal.
  - etransitivity;
      [ apply forElems_ext; intros j e _; apply dumpRecursive_Indirect
      | exact (forElems_seqAll
                 (fun i e =>
                    FitDump.dumpRecursive (reflect.Indirect e)
                      ("[" ++ strconv.Itoa i ++ "]") (S level)) elems 0%nat) ].
  - etransitivity;
      [ apply forElems_ext; intros j e _; apply alt_dumpRecursive_Indirect
      | exact (forElems_seqAll
                 (fun i e =>
                    FitDumpAlt.dumpRecursive (reflect.Indirect e)
                      ("[" ++ strconv.Itoa i ++ "]") (S level)) elems 0%nat) ].
Qed.

Lemma slice_dump_is_header_then_elements_witness :
  FitDump.dumpRecursive (L := plainLib)
    (VSlice None [VString None "a"; VPtr None (Some (VString None "b"))])
    "S" 0
  = FitDump.printIndent 0 ("S (2 elems):" ++ strings.nl) ;;
    FitDump.printIndent 1 ("[0]: a" ++ strings.nl) ;;
    FitDump.printIndent 1 ("[1]: b" ++ strings.nl).
Proof.
  refine (eq_trans
            (proj1 (slice_dump_is_header_then_elements (L := plainLib)
                      [VString None "a"; VPtr None (Some (VString None "b"))]
                      "S" 0 _)) _).
  - discriminate.
  - reflexivity.
Defined.

(** C6 does not extend to arrays: they are not walked but printed by the
    scalar rule, so even an empty array yields a line. *)
Lemma array_is_not_dumped_as_sequence :
  FitDump.dumpRecursive (L := plainLib)
    (reflect.VOther reflect.KArray None "[]") "A" 0
  = ("A: []" ++ strings.nl, Done)
  /\ FitDumpAlt.dumpRecursive (L := plainLib)
       (reflect.VOther reflect.KArray None "[]") "A" 0
     = ("A: []" ++ strings.nl, Done)
  /\ "A: []" ++ strings.nl <> EmptyString.
Proof. repeat split. discriminate. Qed.

(** ** Structs and field visibility *)

Lemma forFields_ext (f g : string -> Value -> Out)
      (fs : list (string * Value)) :
  (forall nv, In nv fs -> f (fst nv) (snd nv) = g (fst nv) (snd nv)) ->
  forFields f fs = forFields g fs.
Proof.
  induction fs as [|[n v] fs IH]; intros Hfg; cbn; [reflexivity|].
  pose proof (Hfg (n, v) (or_introl eq_refl)) as E. cbn [fst snd] in E.
  rewrite E. f_equal. apply IH.
  intros nv Hnv. apply Hfg. now right.
Qed.

(** First variant: a struct without a [String] method whose field names
    are well formed prints its header, the dumps of exactly the fields
    with an upper-case initial, one level deeper and in order, and the
    separator. *)
Lemma struct_dump_visits_capital_fields {L : GoLib} (tname : string)
      (fields : list (string * Value)) (name : string) (level : nat) :
  (forall nv, In nv fields -> utf8.WellFormedHead (bytes (fst nv)) = true) ->
  FitDump.dumpRecursive (VStruct tname None fields) name level
  = FitDump.printIndent level (name ++ ":" ++ strings.nl) ;;
    seqAll (map (fun nv => FitDump.dumpRecursive (snd nv) (fst nv) (S level))
                (filter (fun nv => capitalInitial (fst nv)) fields)) ;;
    FitDump.printIndent level ("---" ++ strings.nl).
Proof.
  intros Hwf.
  cbn [FitDump.dumpRecursive reflect.Value_MethodByName_String
         reflect.stringMethod].
  do 2 f_equal.
  rewrite <- (seqAll_skip
                (fun nv => FitDump.dumpRecursive (snd nv) (fst nv) (S level))
                (fun nv => capitalInitial (fst nv))).
  etransitivity; [|apply forFields_seqAll with
    (f := fun n v => if capitalInitial n
                     then FitDump.dumpRecursive v n (S level) else done)].
  apply forFields_ext. intros nv Hnv.
  rewrite exported_spec, (Hwf nv Hnv).
  now destruct (capitalInitial (fst nv)).
Qed.

(** Second variant: header, then the dumps of the fields that fail the
    lower-case test, and no separator. *)
Lemma alt_struct_dump_visits_unskipped_fields {L : GoLib} (tname : string)
      (fields : list (string * Value)) (name : string) (level : nat) :
  FitDumpAlt.dumpRecursive (VStruct tname None fields) name level
  = FitDumpAlt.printIndent level (name ++ ":" ++ strings.nl) ;;
    seqAll (map (fun nv =>
                   FitDumpAlt.dumpRecursive (snd nv) (fst nv) (S level))
                (filter (fun nv => negb (FitDumpAlt.lowerInitial (fst nv)))
                        fields)).
Proof.
  cbn [FitDumpAlt.dumpRecursive]. f_equal.
  rewrite <- (seqAll_skip
                (fun nv =>
                   FitDumpAlt.dumpRecursive (snd nv) (fst nv) (S level))
                (fun nv => negb (FitDumpAlt.lowerInitial (fst nv)))).
  etransitivity; [|apply forFields_seqAll with
    (f := fun n v => if negb (FitDumpAlt.lowerInitial n)
                     then FitDumpAlt.dumpRecursive v n (S level) else done)].
  apply forFields_ext. intros nv _.
  now destruct (FitDumpAlt.lowerInitial (fst nv)).
Qed.

(** On a name that starts with an ASCII byte the two visibility tests
    agree: the field is visited exactly when that byte is in [A-Z]. *)
Lemma visibility_tests_agree_on_ascii {L : GoLib} (c : ascii) (rest : string) :
  byte_val c < 0x80 ->
  negb (FitDumpAlt.lowerInitial (String c rest)) = capitalInitial (String c rest)
  /\ capitalInitial (String c rest) = utf8.within 0x41 0x5A (byte_val c).
Proof.
  intros Hc.
  assert (capitalInitial (String c rest) = utf8.within 0x41 0x5A (byte_val c))
    as Hcap.
  { unfold capitalInitial, utf8.DecodeRune. cbv zeta.
    cbn [bytes List.length utf8.at_ nth].
    replace (Z.of_nat (S (List.length (bytes rest))) <? 1) with false
      by (symmetry; apply Z.ltb_ge; lia).
    pose proof (byte_val_range c) as Hr.
    assert (utf8.first (byte_val c) = utf8.as_) as ->
      by (unfold utf8.first;
          now replace (byte_val c <? 128) with true
            by (symmetry; apply Z.ltb_lt; lia)).
    norm_first utf8.as_. cbn [fst].
    rewrite Z.ldiff_0_r, Z.land_0_r, Z.lor_0_r.
    unfold IsUpper, unicode.MaxLatin1, unicode.latin1Upper, utf8.within.
    decide_cmp. bools. now rewrite !orb_false_r. }
  split; [|exact Hcap]. rewrite Hcap. clear Hcap. revert Hc.
  destruct c as [[|] [|] [|] [|] [|] [|] [|] [|]];
    vm_compute; intros; congruence.
Qed.

(** C7.  The second variant visits a field whose name starts with a
    lower-case letter outside ASCII: [écart], whose first byte 0xC3 is not
    a text on its own, so [strings.ToLower] changes it and the test for a
    lower-case initial fails.  The first variant passes the same field
    over. *)
Theorem alt_visits_field_with_lowercase_nonascii_initial {L : GoLib} :
  let ecart := String "195"%char (String "169"%char "cart") in
  let t := VStruct "T" None [(ecart, VInt reflect.KInt None 7)] in
  FitDumpAlt.dumpRecursive t "t" 0
  = ("t:" ++ strings.nl
       ++ strings.tab ++ ecart ++ ": 7" ++ strings.nl, Done)
  /\ FitDump.dumpRecursive t "t" 0
     = ("t:" ++ strings.nl ++ "---" ++ strings.nl, Done)
  /\ utf8.DecodeRune (bytes ecart) = (0xE9, 2).
Proof. cbv zeta. repeat split. Qed.

(** ** The process *)

Lemma exitCode_last (evs : list Event) (c : Z) :
  exitCode (evs ++ [EvExit c]) = Some c.
Proof. unfold exitCode. now rewrite last_last. Qed.

Lemma stdout_app (a b : list Event) : stdout (a ++ b) = stdout a ++ stdout b.
Proof.
  induction a as [|ev a IH]; cbn; [reflexivity|].
  destruct ev; cbn; rewrite IH; auto using append_assoc'.
Qed.

Ltac keep_dumps :=
  cbn -[FitDump.dumpRecursive FitDumpAlt.dumpRecursive FitDumpAlt.dumpTop
        append].





(** C9.  When the file decodes, the first stage prints [s] and the
    selector then fails with [e] (unknown type or accessor error), the
    process is: open, decode, write [s], the selector's accessor call if
    any, close, write the error line, exit 1.  The first stage's text is
    written before the selector runs and stays on standard output, which
    reads [s] followed by the error line. *)
Theorem first_stage_output_survives_selector_failure {L : GoLib}
        (w : World) (path : string) (f : list Z) (fitf : fit.File)
        (s e : string) :
  Args w = [path] ->
  Open w path = inr f ->
  Decode w f = inr fitf ->
  (FitDump.dumpRecursive (fit.value fitf) path 0 = (s, Done) ->
   snd (snd (FitDump.getFileValue fitf)) = Some e ->
   FitDump.main w
   = ([EvOpen path; EvDecode; EvStdout s]
        ++ fst (FitDump.getFileValue fitf)
        ++ [EvClose; EvStdout (e ++ strings.nl); EvExit 1])%list
   /\ stdout (FitDump.main w) = s ++ e ++ strings.nl)
  /\ (FitDumpAlt.dumpTop fitf = (s, Done) ->
      snd (FitDumpAlt.run_switch fitf) = inl e ->
      FitDumpAlt.main w
      = ([EvOpen path; EvDecode; EvStdout s]
           ++ fst (FitDumpAlt.run_switch fitf)
           ++ [EvClose; EvStdout (e ++ strings.nl); EvExit 1])%list
      /\ stdout (FitDumpAlt.main w) = s ++ e ++ strings.nl).
Proof.
  intros HA HO HD. split.
  - intros H1 H2.
    unfold FitDump.main, FitDump.run. rewrite HA. keep_dumps.
    rewrite HO. keep_dumps. rewrite HD. keep_dumps. rewrite H1. keep_dumps.
    revert H2. rewrite getFileValue_by_tag.
    destruct (matching (fit.Type_ fitf)) as [a|]; keep_dumps.
    + destruct (fit.get fitf a) as [e'|x]; keep_dumps;
        intros E; inversion E; subst.
      now rewrite append_empty_r.
    + intros E; inversion E; subst. now rewrite append_empty_r.
  - intros H1 H2.
    unfold FitDumpAlt.main, FitDumpAlt.run. rewrite HA. keep_dumps.
    rewrite HO. keep_dumps. rewrite HD. keep_dumps. rewrite H1. keep_dumps.
    revert H2. rewrite run_switch_by_tag.
    destruct (matching (fit.Type_ fitf)) as [a|]; keep_dumps.
    + destruct (fit.get fitf a) as [e'|x]; keep_dumps;
        intros E; inversion E; subst.
      now rewrite append_empty_r.
    + intros E; inversion E; subst. now rewrite append_empty_r.
Qed.

Lemma first_stage_output_survives_selector_failure_witness :
  stdout (FitDump.main (L := plainLib) (sampleWorld (fit.FileTypeOther 40)))
  = ("ride.fit:" ++ strings.nl
       ++ strings.tab ++ "Header:" ++ strings.nl
       ++ strings.tab ++ strings.tab ++ "Size: 14" ++ strings.nl
       ++ strings.tab ++ "---" ++ strings.nl
       ++ strings.tab ++ "CRC: 4660" ++ strings.nl
       ++ "---" ++ strings.nl)
     ++ "unknown filetype 'FileType(40)'" ++ strings.nl.
Proof.
  refine (proj2 (proj1 (first_stage_output_survives_selector_failure
                          (L := plainLib)
                          (sampleWorld (fit.FileTypeOther 40))
                          "ride.fit" [0x0E; 0x10]
                          (sampleFile (fit.FileTypeOther 40))
                          _ _ _ _ _) _ _));
    reflexivity.
Defined.

(** ** Values the printer walks without a panic *)

Lemma andThen_Done (a b : Out) :
  out_status a = Done -> out_status b = Done -> out_status (a ;; b) = Done.
Proof.
  destruct a as [sa [|ma]], b as [sb stb]; cbn; intros; congruence.
Qed.

Lemma forFields_Done (f : string -> Value -> Out)
      (fs : list (string * Value)) :
  Forall (fun nv => out_status (f (fst nv) (snd nv)) = Done) fs ->
  out_status (forFields f fs) = Done.
Proof.
  induction 1 as [|[n v] fs H _ IH]; cbn; [reflexivity|].
  now apply andThen_Done.
Qed.

Lemma forElems_Done (f : nat -> Value -> Out) (es : list Value) (i : nat) :
  Forall (fun e => forall j, out_status (f j e) = Done) es ->
  out_status (forElems f i es) = Done.
Proof.
  intros H. revert i. induction H as [|e es H _ IH]; intros i; cbn;
    [reflexivity|].
  now apply andThen_Done.
Qed.

(** [dumpField] on a valid value panics only if its [String] method
    does. *)
Lemma dumpField_Done {L : GoLib} (v : Value) (name : string) (level : nat) :
  v <> reflect.Zero ->
  returns (reflect.stringMethod v) = true ->
  out_status (FitDump.dumpField v name level) = Done
  /\ out_status (FitDumpAlt.dumpField v name level) = Done.
Proof.
  intros Hv Hm. unfold FitDump.dumpField, FitDumpAlt.dumpField.
  assert (reflect.Value_MethodByName_String v
          = Returns (reflect.stringMethod v)) as ->
    by (destruct v; [congruence | reflexivity ..]).
  assert (reflect.Value_Type_MethodByName_String v
          = Returns (reflect.stringMethod v)) as ->
    by (destruct v; [congruence | reflexivity ..]).
  destruct (reflect.stringMethod v) as [[str|msg]|]; try discriminate.
  - destruct (strings.HasSuffix str "Invalid"); split; reflexivity.
  - unfold FitDumpAlt.invalidValues.
    destruct (FitDump.invalidValues (reflect.Value_Kind v)) as [p|];
      [destruct (p v)|]; split; reflexivity.
Qed.

(** Below a struct, a pointer or a slice the printer is [dumpField]. *)
Lemma dumpRecursive_leaf {L : GoLib} (v : Value) (name : string)
      (level : nat) :
  match v with
  | VStruct _ _ _ | VPtr _ _ | VSlice _ _ => True
  | _ =>
      FitDump.dumpRecursive v name level = FitDump.dumpField v name level
      /\ FitDumpAlt.dumpRecursive v name level
         = FitDumpAlt.dumpField v name level
  end.
Proof.
  destruct v; try exact I; try destruct m as [call|]; split; reflexivity.
Qed.

Lemma walkable_dumpsDone_below {L : GoLib} (v : Value) :
  (walkable v = true -> dumpsDone v)
  /\ (forall m t, v = VPtr m (Some t) -> walkable t = true -> dumpsDone t).
Proof.
  induction v as [|m b|k m i|k m u|m bits|m bits|m s|t m fields IH|m
                 |m e IH|m elems IH|k m text] using Value_nested_ind;
    (split; [intros Hw name level | intros m0 t0 E; try discriminate]);
    try discriminate;
    try (match goal with
         | |- context [FitDump.dumpRecursive ?v _ _] =>
             pose proof (dumpRecursive_leaf v name level) as Hl
         end;
         cbn beta iota in Hl;
         lazymatch type of Hl with _ /\ _ => destruct Hl as [E1 E2] end;
         rewrite E1, E2;
         apply dumpField_Done; [discriminate | exact Hw]).
  - (* struct *)
    cbn [walkable] in Hw. apply andb_true_iff in Hw as [Hm Hfs].
    rewrite forallb_forall in Hfs.
    assert (Forall (fun nv =>
              utf8.WellFormedHead (bytes (fst nv)) = true
              /\ dumpsDone (snd nv)) fields) as Hall.
    { rewrite Forall_forall in IH |- *. intros [n x] Hin.
      specialize (Hfs _ Hin). cbn in Hfs.
      apply andb_true_iff in Hfs as [Hn Hx].
      split; [exact Hn | exact (proj1 (IH _ Hin) Hx)]. }
    split.
    + destruct m as [call|].
      * rewrite (dumpRecursive_stringer _ call) by reflexivity.
        apply dumpField_Done; [discriminate | exact Hm].
      * cbn [FitDump.dumpRecursive reflect.Value_MethodByName_String
               reflect.stringMethod].
        apply andThen_Done; [reflexivity|]. apply andThen_Done; [|reflexivity].
        apply forFields_Done. eapply Forall_impl; [|exact Hall].
        intros nv [Hn Hx]. cbn beta. rewrite exported_spec, Hn.
        destruct (capitalInitial (fst nv)); [apply Hx | reflexivity].
    + cbn [FitDumpAlt.dumpRecursive].
      destruct m as [[str|msg]|]; try discriminate; [reflexivity|].
      apply andThen_Done; [reflexivity|].
      apply forFields_Done. eapply Forall_impl; [|exact Hall].
      intros nv [Hn Hx]. cbn beta.
      destruct (FitDumpAlt.lowerInitial (fst nv)); [reflexivity | apply Hx].
  - (* nil pointer *)
    split; [|reflexivity].
    destruct m as [call|]; [|reflexivity].
    rewrite (dumpRecursive_stringer _ call) by reflexivity.
    apply dumpField_Done; [discriminate | exact Hw].
  - (* pointer *)
    cbn [walkable] in Hw. apply andb_true_iff in Hw as [Hm He].
    split; [|apply (proj1 IH He)].
    destruct m as [call|]; [|apply (proj1 IH He)].
    rewrite (dumpRecursive_stringer _ call) by reflexivity.
    apply dumpField_Done; [discriminate | exact Hm].
  - (* pointee of a pointer *)
    injection E as _ <-. exact (proj1 IH).
  - (* slice *)
    cbn [walkable] in Hw. apply andb_true_iff in Hw as [Hm Hes].
    rewrite forallb_forall in Hes.
    assert (Forall (fun e => dumpsDone (reflect.Indirect e)) elems) as Hall.
    { rewrite Forall_forall in IH |- *. intros e Hin.
      specialize (Hes _ Hin). specialize (IH _ Hin).
      destruct e as [| | | | | | | |m' [t|]| |]; try discriminate;
        try (exact (proj1 IH Hes)).
      exact (proj2 IH m' t eq_refl Hes). }
    assert ((elems = [] \/ (List.length elems =? 0)%nat = false)) as [->|Hlen]
      by (destruct elems; [now left | now right]).
    { split; [|reflexivity].
      destruct m as [call|]; [|reflexivity].
      rewrite (dumpRecursive_stringer _ call) by reflexivity.
      apply dumpField_Done; [discriminate | exact Hm]. }
    split.
    + destruct m as [call|].
      * rewrite (dumpRecursive_stringer _ call) by reflexivity.
        apply dumpField_Done; [discriminate | exact Hm].
      * cbn [FitDump.dumpRecursive reflect.Value_MethodByName_String
               reflect.stringMethod]. rewrite Hlen.
        apply andThen_Done; [reflexivity|].
        apply forElems_Done. eapply Forall_impl; [|exact Hall].
        intros e He j. cbn beta zeta. rewrite dumpRecursive_Indirect.
        apply He.
    + cbn [FitDumpAlt.dumpRecursive]. rewrite Hlen.
      apply andThen_Done; [reflexivity|].
      apply forElems_Done. eapply Forall_impl; [|exact Hall].
      intros e He j. cbn beta zeta. rewrite alt_dumpRecursive_Indirect.
      apply He.
Qed.



(** * Further properties *)

(** ** Induction along the recursion of the printer *)

(** What the printer does below a value: the fields of a struct, the
    pointee of a pointer, the elements of a slice after
    [reflect.Indirect]. *)
Lemma dump_ind (P : Value -> Prop) :
  P reflect.Zero ->
  (forall v,
      match v with
      | reflect.Zero | VStruct _ _ _ | VPtr _ _ | VSlice _ _ => True
      | _ => P v
      end) ->
  (forall t m fields,
      Forall (fun nv => P (snd nv)) fields -> P (VStruct t m fields)) ->
  (forall m, P (VPtr m None)) ->
  (forall m e, P e -> P (VPtr m (Some e))) ->
  (forall m elems,
      Forall (fun e => P (reflect.Indirect e)) elems -> P (VSlice m elems)) ->
  forall v, P v.
Proof.
  intros HZero HLeaf HStruct HNil HPtr HSlice v.
  enough (P v /\ (forall m t, v = VPtr m (Some t) -> P t)) as [H _]
    by exact H.
  induction v as [|m b|k m i|k m u|m bits|m bits|m s|t m fields IH|m
                 |m e IH|m elems IH|k m text] using Value_nested_ind;
    (split; [|intros m0 t0 E; try discriminate]).
  - exact HZero.
  - exact (HLeaf (VBool m b)).
  - exact (HLeaf (VInt k m i)).
  - exact (HLeaf (VUint k m u)).
  - exact (HLeaf (VFloat32 m bits)).
  - exact (HLeaf (VFloat64 m bits)).
  - exact (HLeaf (VString m s)).
  - apply HStruct. eapply Forall_impl; [|exact IH]. now intros nv [H _].
  - apply HNil.
  - apply HPtr, IH.
  - injection E as _ <-. apply IH.
  - apply HSlice. eapply Forall_impl; [|exact IH].
    intros e [He Hbelow].
    destruct e as [| | | | | | | |m' [t|]| |]; try exact He.
    + exact (Hbelow m' t eq_refl).
    + exact HZero.
  - exact (HLeaf (reflect.VOther k m text)).
Qed.

Lemma out_text_andThen_print (level : nat) (text : string) (o : Out) :
  out_text (FitDump.printIndent level text ;; o)
  = strings.Repeat strings.tab level ++ text ++ out_text o.
Proof. destruct o. cbn. now rewrite append_assoc'. Qed.

(** ** Where a dump starts and how it ends *)

Lemma dumpField_emptyOrBegins {L : GoLib} (v : Value) (name : string)
      (level : nat) :
  emptyOrBegins (strings.Repeat strings.tab level ++ name)
    (out_text (FitDump.dumpField v name level))
  /\ emptyOrBegins (strings.Repeat strings.tab level ++ name)
       (out_text (FitDumpAlt.dumpField v name level)).
Proof.
  assert (forall rest,
            emptyOrBegins (strings.Repeat strings.tab level ++ name)
              (out_text (FitDump.printIndent level (name ++ rest)))) as Hp.
  { intros rest. right. exists rest. cbn. now rewrite append_assoc'. }
  unfold FitDump.dumpField, FitDumpAlt.dumpField, FitDumpAlt.invalidValues,
    FitDumpAlt.printIndent.
  destruct v; cbn -[FitDump.printIndent FitDump.invalidValues append];
    try (split; now left);
    (destruct m as [[str|msg]|];
     [ destruct (strings.HasSuffix str "Invalid");
       split; solve [now left | apply Hp]
     | split; now left
     | ]);
    match goal with
    | |- context [FitDump.invalidValues ?k] =>
        destruct (FitDump.invalidValues k) as [p|]
    end;
    try match goal with
        | |- context [if ?c then _ else _] => destruct c
        end;
    split; solve [now left | apply Hp].
Qed.

Lemma dumpRecursive_emptyOrBegins {L : GoLib} (v : Value) :
  forall name level,
    emptyOrBegins (strings.Repeat strings.tab level ++ name)
      (out_text (FitDump.dumpRecursive v name level))
    /\ emptyOrBegins (strings.Repeat strings.tab level ++ name)
         (out_text (FitDumpAlt.dumpRecursive v name level)).
Proof.
  assert (forall level name rest o,
            emptyOrBegins (strings.Repeat strings.tab level ++ name)
              (out_text (FitDump.printIndent level (name ++ rest) ;; o)))
    as Hp.
  { intros level name rest o. right. exists (rest ++ out_text o).
    rewrite out_text_andThen_print. now rewrite !append_assoc'. }
  pattern v; apply dump_ind; clear v;
    [ intros name level
    | intros v
    | intros t m fields _ name level
    | intros m name level
    | intros m e IHv name level
    | intros m elems _ name level ].
  - split; now left.
  - destruct v; try exact I; intros name level;
      match goal with
      | |- context [FitDump.dumpRecursive ?x _ _] =>
          destruct (dumpRecursive_leaf x name level) as [-> ->]
      end;
      apply dumpField_emptyOrBegins.
  - split.
    + destruct m as [call|].
      * rewrite (dumpRecursive_stringer _ call) by reflexivity.
        apply dumpField_emptyOrBegins.
      * cbn [FitDump.dumpRecursive reflect.Value_MethodByName_String
               reflect.stringMethod]. apply Hp.
    + cbn [FitDumpAlt.dumpRecursive].
      destruct m as [[str|msg]|]; [|now left|apply Hp].
      right. exists (": " ++ str ++ strings.nl). cbn.
      now rewrite append_assoc'.
  - split; [|now left].
    destruct m as [call|]; [|now left].
    rewrite (dumpRecursive_stringer _ call) by reflexivity.
    apply dumpField_emptyOrBegins.
  - split; [|apply IHv].
    destruct m as [call|]; [|apply IHv].
    rewrite (dumpRecursive_stringer _ call) by reflexivity.
    apply dumpField_emptyOrBegins.
  - split.
    + destruct m as [call|].
      * rewrite (dumpRecursive_stringer _ call) by reflexivity.
        apply dumpField_emptyOrBegins.
      * cbn [FitDump.dumpRecursive reflect.Value_MethodByName_String
               reflect.stringMethod].
        destruct (List.length elems =? 0)%nat; [now left | apply Hp].
    + cbn [FitDumpAlt.dumpRecursive].
      destruct (List.length elems =? 0)%nat; [now left | apply Hp].
Qed.

Lemma wholeLines_app (a b : string) :
  wholeLines a -> wholeLines b -> wholeLines (a ++ b).
Proof.
  intros [->|[pa ->]] [->|[pb ->]]; cbn.
  - now left.
  - right. now exists pb.
  - right. exists pa. now rewrite append_empty_r.
  - right. exists (pa ++ strings.nl ++ pb). now rewrite !append_assoc'.
Qed.

Lemma wholeLines_andThen (a b : Out) :
  wholeLines (out_text a) -> wholeLines (out_text b) ->
  wholeLines (out_text (a ;; b)).
Proof.
  destruct a as [sa [|ma]], b as [sb stb]; cbn; intros Ha Hb;
    [now apply wholeLines_app | exact Ha].
Qed.

Lemma endsNL_app (a b : string) :
  (exists pre, b = pre ++ strings.nl) ->
  exists pre, a ++ b = pre ++ strings.nl.
Proof. intros [pb ->]. exists (a ++ pb). now rewrite append_assoc'. Qed.

(** Every text [printIndent] is called with ends in a newline. *)
Ltac line_ends :=
  right; cbn [out_text fst FitDump.printIndent FitDumpAlt.printIndent];
  repeat apply endsNL_app; exists EmptyString; reflexivity.

Lemma dumpField_wholeLines {L : GoLib} (v : Value) (name : string)
      (level : nat) :
  wholeLines (out_text (FitDump.dumpField v name level))
  /\ wholeLines (out_text (FitDumpAlt.dumpField v name level)).
Proof.
  unfold FitDump.dumpField, FitDumpAlt.dumpField, FitDumpAlt.invalidValues,
    FitDumpAlt.printIndent.
  destruct v; cbn -[FitDump.printIndent FitDump.invalidValues append];
    try (split; now left);
    (destruct m as [[str|msg]|];
     [ destruct (strings.HasSuffix str "Invalid");
       split; solve [now left | line_ends]
     | split; now left
     | ]);
    match goal with
    | |- context [FitDump.invalidValues ?k] =>
        destruct (FitDump.invalidValues k) as [p|]
    end;
    try match goal with
        | |- context [if ?c then _ else _] => destruct c
        end;
    split; solve [now left | line_ends].
Qed.

Lemma forFields_wholeLines (f : string -> Value -> Out)
      (fs : list (string * Value)) :
  Forall (fun nv => wholeLines (out_text (f (fst nv) (snd nv)))) fs ->
  wholeLines (out_text (forFields f fs)).
Proof.
  induction 1 as [|[n v] fs H _ IH]; cbn [forFields]; [now left|].
  now apply wholeLines_andThen.
Qed.

Lemma forElems_wholeLines (f : nat -> Value -> Out) (es : list Value)
      (i : nat) :
  Forall (fun e => forall j, wholeLines (out_text (f j e))) es ->
  wholeLines (out_text (forElems f i es)).
Proof.
  intros H. revert i. induction H as [|e es H _ IH]; intros i;
    cbn [forElems]; [now left|].
  now apply wholeLines_andThen.
Qed.

Lemma dumpRecursive_wholeLines {L : GoLib} (v : Value) :
  forall name level,
    wholeLines (out_text (FitDump.dumpRecursive v name level))
    /\ wholeLines (out_text (FitDumpAlt.dumpRecursive v name level)).
Proof.
  pattern v; apply dump_ind; clear v;
    [ intros name level
    | intros v
    | intros t m fields IH name level
    | intros m name level
    | intros m e IHv name level
    | intros m elems IH name level ].
  - split; now left.
  - destruct v; try exact I; intros name level;
      match goal with
      | |- context [FitDump.dumpRecursive ?x _ _] =>
          destruct (dumpRecursive_leaf x name level) as [-> ->]
      end;
      apply dumpField_wholeLines.
  - split.
    + destruct m as [call|].
      * rewrite (dumpRecursive_stringer _ call) by reflexivity.
        apply dumpField_wholeLines.
      * cbn [FitDump.dumpRecursive reflect.Value_MethodByName_String
               reflect.stringMethod].
        apply wholeLines_andThen; [line_ends|].
        apply wholeLines_andThen; [|line_ends].
        apply forFields_wholeLines. eapply Forall_impl; [|exact IH].
        intros nv Hnv. cbn beta.
        destruct (FitDump.exported (fst nv)) as [[|]|msg];
          [apply Hnv | now left | now left].
    + cbn [FitDumpAlt.dumpRecursive].
      destruct m as [[str|msg]|]; [line_ends | now left |].
      apply wholeLines_andThen; [line_ends|].
      apply forFields_wholeLines. eapply Forall_impl; [|exact IH].
      intros nv Hnv. cbn beta.
      destruct (FitDumpAlt.lowerInitial (fst nv)); [now left | apply Hnv].
  - split; [|now left].
    destruct m as [call|]; [|now left].
    rewrite (dumpRecursive_stringer _ call) by reflexivity.
    apply dumpField_wholeLines.
  - split; [|apply IHv].
    destruct m as [call|]; [|apply IHv].
    rewrite (dumpRecursive_stringer _ call) by reflexivity.
    apply dumpField_wholeLines.
  - split.
    + destruct m as [call|].
      * rewrite (dumpRecursive_stringer _ call) by reflexivity.
        apply dumpField_wholeLines.
      * cbn [FitDump.dumpRecursive reflect.Value_MethodByName_String
               reflect.stringMethod].
        destruct (List.length elems =? 0)%nat; [now left|].
        apply wholeLines_andThen; [line_ends|].
        apply forElems_wholeLines. eapply Forall_impl; [|exact IH].
        intros e He j. cbn beta zeta. rewrite dumpRecursive_Indirect.
        apply He.
    + cbn [FitDumpAlt.dumpRecursive].
      destruct (List.length elems =? 0)%nat; [now left|].
      apply wholeLines_andThen; [line_ends|].
      apply forElems_wholeLines. eapply Forall_impl; [|exact IH].
      intros e He j. cbn beta zeta. rewrite alt_dumpRecursive_Indirect.
      apply He.
Qed.

(** X7.  Whatever a dump prints starts with the label at the given indent:
    the text is empty or begins with [level] tabs and [name].  For
    [dumpFile] the label is [File] at the left margin. *)
Theorem dump_begins_with_indented_label {L : GoLib} (v : Value)
        (name : string) (level : nat) :
  emptyOrBegins (strings.Repeat strings.tab level ++ name)
    (out_text (FitDump.dumpRecursive v name level))
  /\ emptyOrBegins (strings.Repeat strings.tab level ++ name)
       (out_text (FitDumpAlt.dumpRecursive v name level))
  /\ emptyOrBegins "File" (out_text (FitDumpAlt.dumpFile v)).
Proof.
  split; [|split].
  - apply dumpRecursive_emptyOrBegins.
  - apply dumpRecursive_emptyOrBegins.
  - exact (proj2 (dumpRecursive_emptyOrBegins v "File" 0%nat)).
Qed.

(** X8.  A dump only ever writes whole lines: its text, also the text
    written before a panic, is empty or ends in a newline. *)
Theorem dump_writes_whole_lines {L : GoLib} (v : Value)
        (name : string) (level : nat) :
  wholeLines (out_text (FitDump.dumpRecursive v name level))
  /\ wholeLines (out_text (FitDumpAlt.dumpRecursive v name level))
  /\ wholeLines (out_text (FitDumpAlt.dumpFile v)).
Proof.
  split; [|split].
  - apply dumpRecursive_wholeLines.
  - apply dumpRecursive_wholeLines.
  - exact (proj2 (dumpRecursive_wholeLines v "File" 0%nat)).
Qed.

(** ** Scalars *)

(** X1.  A field without a [String] method whose kind is one of the ten
    non-float rows of the sentinel table is passed over exactly when it
    holds its kind's sentinel, and otherwise printed as one line
    [<name>: <value>] (both variants). *)
Theorem scalar_field_is_suppressed_exactly_at_its_sentinel {L : GoLib}
        (v : Value) (b : bool) (name : string) (level : nat) :
  reflect.stringMethod v = None ->
  isFloat v = false ->
  documentedSentinel v = Some b ->
  FitDump.dumpField v name level
  = (if b then done
     else FitDump.printIndent level
            (name ++ ": " ++ fmt.Sprint false v ++ strings.nl))
  /\ FitDumpAlt.dumpField v name level
     = (if b then done
        else FitDump.printIndent level
               (name ++ ": " ++ fmt.Sprint false v ++ strings.nl)).
Proof. intros Hm Hf Hs. exact (dumpField_follows_table v b name level Hm Hf Hs). Qed.

Lemma scalar_field_is_suppressed_exactly_at_its_sentinel_witness :
  FitDump.dumpField (L := plainLib) (VUint reflect.KUint8 None 0xFF) "Hr" 1
  = done
  /\ FitDump.dumpField (L := plainLib) (VUint reflect.KUint8 None 0xFE) "Hr" 1
     = FitDump.printIndent 1 ("Hr: 254" ++ strings.nl).
Proof.
  split.
  - refine (proj1 (scalar_field_is_suppressed_exactly_at_its_sentinel
                     (L := plainLib) (VUint reflect.KUint8 None 0xFF) true
                     "Hr" 1 _ _ _)); reflexivity.
  - refine (proj1 (scalar_field_is_suppressed_exactly_at_its_sentinel
                     (L := plainLib) (VUint reflect.KUint8 None 0xFE) false
                     "Hr" 1 _ _ _)); reflexivity.
Defined.

(** X2.  The table has no row for [int], [uint], [uintptr], complex
    numbers, arrays, maps and the like: a valid field of such a kind
    without a [String] method is always printed, whatever it holds, as one
    line under [%+v] (both variants). *)
Theorem field_of_unlisted_kind_is_always_printed {L : GoLib}
        (v : Value) (name : string) (level : nat) :
  v <> reflect.Zero ->
  reflect.stringMethod v = None ->
  documentedSentinel v = None ->
  FitDump.dumpField v name level
  = FitDump.printIndent level
      (name ++ ": " ++ fmt.Sprint true v ++ strings.nl)
  /\ FitDumpAlt.dumpField v name level
     = FitDump.printIndent level
         (name ++ ": " ++ fmt.Sprint true v ++ strings.nl).
Proof.
  intros Hv Hm Hs.
  destruct v as [|m x|k m i|k m u|m bits|m bits|m s|t m fs|m e|m es|k m txt];
    try congruence; try discriminate; cbn in Hm; subst m;
    try (destruct k; try discriminate); split; reflexivity.
Qed.

Lemma field_of_unlisted_kind_is_always_printed_witness :
  FitDump.dumpField (L := plainLib)
    (VInt reflect.KInt None 0x7FFFFFFFFFFFFFFF) "Count" 0
  = FitDump.printIndent 0 ("Count: 9223372036854775807" ++ strings.nl).
Proof.
  refine (proj1 (field_of_unlisted_kind_is_always_printed (L := plainLib)
                   (VInt reflect.KInt None 0x7FFFFFFFFFFFFFFF) "Count" 0
                   _ _ _)); [discriminate | reflexivity | reflexivity].
Defined.

(** ** The [String] rule *)

(** X3.  In the first variant the rendered text alone decides about a
    value whose [String] method returns: nothing when it ends in
    [Invalid], otherwise the one line [<name>: <text>], whatever the
    value's kind, bits, fields or elements.  [dumpField] of the second
    variant does the same. *)
Theorem String_text_alone_decides {L : GoLib} (val : Value) (str : string)
        (name : string) (level : nat) :
  reflect.stringMethod val = Some (Returns str) ->
  let line :=
    if strings.HasSuffix str "Invalid" then done
    else FitDump.printIndent level (name ++ ": " ++ str ++ strings.nl) in
  FitDump.dumpRecursive val name level = line
  /\ FitDump.dumpField val name level = line
  /\ FitDumpAlt.dumpField val name level = line.
Proof.
  intros Hm. cbv zeta.
  rewrite (dumpRecursive_stringer val _ name level Hm).
  unfold FitDump.dumpField, FitDumpAlt.dumpField.
  destruct val; cbn in Hm; try discriminate; subst m; cbn;
    destruct (strings.HasSuffix str "Invalid"); auto.
Qed.

Lemma String_text_alone_decides_witness :
  FitDump.dumpRecursive (L := plainLib)
    (VUint reflect.KUint8 (Some (Returns "Running")) 0xFF) "Sport" 0
  = FitDump.printIndent 0 ("Sport: Running" ++ strings.nl).
Proof.
  refine (proj1 (String_text_alone_decides (L := plainLib)
                   (VUint reflect.KUint8 (Some (Returns "Running")) 0xFF)
                   "Running" "Sport" 0 _)).
  reflexivity.
Defined.

(** ** Structs *)

Lemma seqAll_done (os : list Out) :
  Forall (fun o => o = done) os -> seqAll os = done.
Proof.
  induction 1 as [|o os -> _ IH]; cbn; [reflexivity|].
  now rewrite IH.
Qed.

(** X4.  First variant: a struct without a [String] method whose field
    names are well formed prints its header line, then the dumps of exactly
    the fields with an upper-case initial, in declaration order and one
    level deeper, then the separator line. *)
Theorem struct_dump_is_header_capital_fields_separator {L : GoLib}
        (tname : string) (fields : list (string * Value))
        (name : string) (level : nat) :
  (forall nv, In nv fields -> utf8.WellFormedHead (bytes (fst nv)) = true) ->
  FitDump.dumpRecursive (VStruct tname None fields) name level
  = FitDump.printIndent level (name ++ ":" ++ strings.nl) ;;
    seqAll (map (fun nv => FitDump.dumpRecursive (snd nv) (fst nv) (S level))
                (filter (fun nv => capitalInitial (fst nv)) fields)) ;;
    FitDump.printIndent level ("---" ++ strings.nl).
Proof. apply struct_dump_visits_capital_fields. Qed.

Lemma struct_dump_is_header_capital_fields_separator_witness :
  FitDump.dumpRecursive (L := plainLib)
    (VStruct "Header" None
       [("Size", VUint reflect.KUint8 None 14);
        ("crc", VUint reflect.KUint16 None 7);
        ("CRC", VUint reflect.KUint16 None 0xFFFF)]) "Header" 0
  = FitDump.printIndent 0 ("Header:" ++ strings.nl) ;;
    FitDump.printIndent 1 ("Size: 14" ++ strings.nl) ;;
    FitDump.printIndent 0 ("---" ++ strings.nl).
Proof.
  refine (eq_trans
            (struct_dump_is_header_capital_fields_separator (L := plainLib)
               "Header"
               [("Size", VUint reflect.KUint8 None 14);
                ("crc", VUint reflect.KUint16 None 7);
                ("CRC", VUint reflect.KUint16 None 0xFFFF)] "Header" 0 _) _).
  - intros nv [<-|[<-|[<-|[]]]]; reflexivity.
  - reflexivity.
Defined.

(** X19.  A struct is never passed over as a whole (first variant): when
    every field is unexported or prints nothing, the header line and the
    separator line are still written, and nothing else. *)
Theorem struct_with_nothing_to_show_still_prints_header {L : GoLib}
        (tname : string) (fields : list (string * Value))
        (name : string) (level : nat) :
  (forall nv, In nv fields -> utf8.WellFormedHead (bytes (fst nv)) = true) ->
  (forall nv, In nv fields -> capitalInitial (fst nv) = true ->
              FitDump.dumpRecursive (snd nv) (fst nv) (S level) = done) ->
  FitDump.dumpRecursive (VStruct tname None fields) name level
  = (strings.Repeat strings.tab level ++ name ++ ":" ++ strings.nl
       ++ strings.Repeat strings.tab level ++ "---" ++ strings.nl, Done).
Proof.
  intros Hwf Hquiet.
  rewrite struct_dump_visits_capital_fields by exact Hwf.
  rewrite seqAll_done.
  - rewrite andThen_done_l. cbn. now rewrite !append_assoc'.
  - apply Forall_forall. intros o Ho.
    apply in_map_iff in Ho as [nv [<- Hnv]].
    apply filter_In in Hnv as [Hin Hcap]. now apply Hquiet.
Qed.

Lemma struct_with_nothing_to_show_still_prints_header_witness :
  FitDump.dumpRecursive (L := plainLib)
    (VStruct "Msg" None
       [("Speed", VUint reflect.KUint16 None 0xFFFF);
        ("raw", VUint reflect.KUint8 None 1);
        ("Next", VPtr None None)]) "[0]" 2
  = (strings.Repeat strings.tab 2 ++ "[0]" ++ ":" ++ strings.nl
       ++ strings.Repeat strings.tab 2 ++ "---" ++ strings.nl, Done).
Proof.
  refine (struct_with_nothing_to_show_still_prints_header (L := plainLib)
            "Msg"
            [("Speed", VUint reflect.KUint16 None 0xFFFF);
             ("raw", VUint reflect.KUint8 None 1);
             ("Next", VPtr None None)] "[0]" 2 _ _).
  - intros nv [<-|[<-|[<-|[]]]]; reflexivity.
  - intros nv [<-|[<-|[<-|[]]]]; intros H; try discriminate H; reflexivity.
Defined.

(** X5.  Second variant: a struct without a [String] method prints its
    header line and then the dumps of exactly the fields that fail the
    lower-case test, in order and one level deeper; it writes no
    separator, and no field name can make it panic. *)
Theorem alt_struct_dump_is_header_then_kept_fields {L : GoLib}
        (tname : string) (fields : list (string * Value))
        (name : string) (level : nat) :
  FitDumpAlt.dumpRecursive (VStruct tname None fields) name level
  = FitDumpAlt.printIndent level (name ++ ":" ++ strings.nl) ;;
    seqAll (map (fun nv =>
                   FitDumpAlt.dumpRecursive (snd nv) (fst nv) (S level))
                (filter (fun nv => negb (FitDumpAlt.lowerInitial (fst nv)))
                        fields)).
Proof. apply alt_struct_dump_visits_unskipped_fields. Qed.

(** X6.  On a field name that starts with an ASCII byte the two visibility
    tests agree, and both keep the field exactly when that byte is one of
    [A] to [Z]. *)
Theorem visibility_tests_keep_ascii_capitals {L : GoLib}
        (c : ascii) (rest : string) :
  byte_val c < 0x80 ->
  FitDump.exported (String c rest)
  = Returns (utf8.within 0x41 0x5A (byte_val c))
  /\ negb (FitDumpAlt.lowerInitial (String c rest))
     = utf8.within 0x41 0x5A (byte_val c).
Proof.
  intros Hc.
  destruct (visibility_tests_agree_on_ascii c rest Hc) as [H1 H2].
  split; [|now rewrite H1].
  rewrite exported_spec, <- H2.
  assert (utf8.WellFormedHead (bytes (String c rest)) = true) as ->;
    [|reflexivity].
  cbn [bytes utf8.WellFormedHead]. unfold utf8.within.
  pose proof (byte_val_range c).
  replace (0 <=? byte_val c) with true by (symmetry; apply Z.leb_le; lia).
  now replace (byte_val c <=? 127) with true
    by (symmetry; apply Z.leb_le; lia).
Qed.

Lemma visibility_tests_keep_ascii_capitals_witness :
  FitDump.exported (L := plainLib) "Timestamp" = Returns true
  /\ negb (FitDumpAlt.lowerInitial "Timestamp") = true.
Proof.
  refine (visibility_tests_keep_ascii_capitals (L := plainLib)
            "T"%char "imestamp" _).
  vm_compute. reflexivity.
Defined.

(** X18.  [exported] panics, with the message [unicode error], on the
    empty name and on every name whose first bytes are not a well-formed
    UTF-8 sequence. *)
Theorem exported_panics_on_every_malformed_initial {L : GoLib}
        (name : string) :
  utf8.WellFormedHead (bytes name) = false ->
  FitDump.exported name = Panics "unicode error".
Proof. intros E. now rewrite exported_spec, E. Qed.

Lemma exported_panics_on_every_malformed_initial_witness :
  FitDump.exported (L := plainLib) (String "169"%char "cart")
  = Panics "unicode error".
Proof.
  refine (exported_panics_on_every_malformed_initial (L := plainLib)
            (String "169"%char "cart") _).
  reflexivity.
Defined.

(** ** Values that are dumped to the end *)

(** X9.  A dump panics only on account of the value: when every [String]
    method in it returns, every field name starts with a well-formed rune
    and no slice holds a nil pointer, both variants run to their end, under
    any label and at any indent. *)
Theorem walkable_value_is_dumped_to_the_end {L : GoLib} (v : Value)
        (name : string) (level : nat) :
  walkable v = true ->
  out_status (FitDump.dumpRecursive v name level) = Done
  /\ out_status (FitDumpAlt.dumpRecursive v name level) = Done
  /\ out_status (FitDumpAlt.dumpFile v) = Done.
Proof.
  intros Hw. pose proof (proj1 (walkable_dumpsDone_below v) Hw) as H.
  split; [|split]; apply H.
Qed.

Lemma walkable_value_is_dumped_to_the_end_witness :
  out_status (FitDump.dumpRecursive (L := plainLib)
                (ValueOf_deref sampleSub) "ActivityFile" 0) = Done.
Proof.
  refine (proj1 (walkable_value_is_dumped_to_the_end (L := plainLib)
                   (ValueOf_deref sampleSub) "ActivityFile" 0 _)).
  reflexivity.
Defined.

(** ** The selector *)


(** X12.  The selectors of the two variants call the same accessor and
    succeed on the same files with the same data; on an accessor error
    the second variant reports the first variant's message behind
    [get file failed: ]. *)
Theorem selectors_of_both_variants_agree {L : GoLib} (fitf : fit.File) :
  fst (FitDump.getFileValue fitf) = fst (FitDumpAlt.run_switch fitf)
  /\ match snd (FitDumpAlt.run_switch fitf) with
     | inr data => snd (FitDump.getFileValue fitf) = (data, None)
     | inl e' =>
         exists e,
           snd (FitDump.getFileValue fitf) = (reflect.Zero, Some e)
           /\ (matching (fit.Type_ fitf) <> None ->
               e' = "get file failed: " ++ e)
     end.
Proof.
  rewrite getFileValue_by_tag, run_switch_by_tag.
  destruct (matching (fit.Type_ fitf)) as [a|]; cbn.
  - split; [reflexivity|].
    destruct (fit.get fitf a) as [e|x]; [|reflexivity].
    exists e. split; [reflexivity | reflexivity].
  - split; [reflexivity|]. eexists. split; [reflexivity | congruence].
Qed.

(** ** The process *)

Lemma closes_app (a b : list Event) :
  closes (a ++ b) = (closes a + closes b)%nat.
Proof.
  induction a as [|ev a IH]; cbn; [reflexivity|].
  destruct ev; cbn; now rewrite IH.
Qed.

Lemma calls_app (a b : list Event) : calls (a ++ b) = (calls a ++ calls b)%list.
Proof.
  induction a as [|ev a IH]; cbn; [reflexivity|].
  destruct ev; cbn; now rewrite IH.
Qed.

(** X13.  The file is closed exactly once when it could be opened,
    whether [run] then returns or panics, and never otherwise; the close
    is the last thing [run] does. *)
Theorem file_is_closed_once_iff_opened {L : GoLib} (w : World) :
  let opened :=
    match Args w with
    | [path] => match Open w path with inr _ => true | inl _ => false end
    | _ => false
    end in
  closes (FitDump.main w) = (if opened then 1 else 0)%nat
  /\ closes (FitDumpAlt.main w) = (if opened then 1 else 0)%nat
  /\ (opened = true ->
      List.last (fst (FitDump.run w)) EvDecode = EvClose
      /\ List.last (fst (FitDumpAlt.run w)) EvDecode = EvClose).
Proof.
  cbv zeta. unfold FitDump.main, FitDumpAlt.main.
  unfold FitDump.run, FitDumpAlt.run.
  destruct (Args w) as [|path [|path' args]];
    [cbn; repeat split; discriminate | | cbn; repeat split; discriminate].
  keep_dumps.
  destruct (Open w path) as [e|f]; keep_dumps;
    [repeat split; discriminate|].
  destruct (Decode w f) as [e|fitf]; keep_dumps; [repeat split|].
  rewrite getFileValue_by_tag, run_switch_by_tag.
  destruct (FitDump.dumpRecursive (fit.value fitf) path 0) as [s1 [|m1]];
    destruct (FitDumpAlt.dumpTop fitf) as [t1 [|n1]];
    keep_dumps;
    (destruct (matching (fit.Type_ fitf)) as [a|]; keep_dumps;
     [destruct (fit.get fitf a) as [e|x]; keep_dumps|]);
    repeat match goal with
      | |- context [FitDump.dumpRecursive ?v ?n ?l] =>
          destruct (FitDump.dumpRecursive v n l) as [? [|?]]; keep_dumps
      | |- context [FitDumpAlt.dumpRecursive ?v ?n ?l] =>
          destruct (FitDumpAlt.dumpRecursive v n l) as [? [|?]]; keep_dumps
      end;
    repeat split.
Qed.







(** ** The two variants side by side *)

Lemma dumpField_same_in_both_variants {L : GoLib} (v : Value)
      (name : string) (level : nat) :
  v <> reflect.Zero ->
  FitDump.dumpField v name level = FitDumpAlt.dumpField v name level.
Proof. intros Hv. destruct v; [congruence | reflexivity ..]. Qed.

(** X20.  On a value made of scalars, pointers and slices only, with no
    [String] method on a pointer or slice and no nil pointer inside a
    slice, the two variants print the same text; they differ on structs
    alone. *)
Theorem variants_agree_below_structs {L : GoLib} (v : Value) :
  structFree v = true ->
  forall name level,
    FitDump.dumpRecursive v name level
    = FitDumpAlt.dumpRecursive v name level.
Proof.
  pattern v; apply dump_ind; clear v;
    [ discriminate
    | intros v
    | discriminate
    | intros m Hs name level
    | intros m e IHv Hs name level
    | intros m elems IH Hs name level ].
  - destruct v; try exact I; intros _ name level;
      match goal with
      | |- context [FitDump.dumpRecursive ?x _ _] =>
          destruct (dumpRecursive_leaf x name level) as [-> ->]
      end;
      apply dumpField_same_in_both_variants; discriminate.
  - destruct m; [discriminate | reflexivity].
  - destruct m; [discriminate|]. cbn in Hs. exact (IHv Hs name level).
  - destruct m; [discriminate|]. cbn [structFree] in Hs.
    rewrite forallb_forall in Hs.
    cbn [FitDump.dumpRecursive FitDumpAlt.dumpRecursive
           reflect.Value_MethodByName_String reflect.stringMethod].
    destruct (List.length elems =? 0)%nat; [reflexivity|].
    f_equal. apply forElems_ext. intros j e He.
    rewrite dumpRecursive_Indirect, alt_dumpRecursive_Indirect.
    rewrite Forall_forall in IH. apply (IH e He).
    specialize (Hs e He).
    destruct e as [| | | | | | | |m' [t|]| |]; try discriminate; exact Hs.
Qed.

Lemma variants_agree_below_structs_witness :
  FitDump.dumpRecursive (L := plainLib)
    (VSlice None [VUint reflect.KUint8 None 1;
                  VPtr None (Some (VString None "x"))]) "Data" 0
  = FitDumpAlt.dumpRecursive (L := plainLib)
      (VSlice None [VUint reflect.KUint8 None 1;
                    VPtr None (Some (VString None "x"))]) "Data" 0.
Proof.
  refine (variants_agree_below_structs (L := plainLib)
            (VSlice None [VUint reflect.KUint8 None 1;
                          VPtr None (Some (VString None "x"))]) _ "Data" 0).
  reflexivity.
Defined.

(** ** The unknown-message dumps *)

Lemma forRange_snoc {A : Type} (f : nat -> A -> Out) (xs : list A) (x : A)
      (i : nat) :
  forRange f i (xs ++ [x])
  = forRange f i xs ;; f (i + List.length xs)%nat x.
Proof.
  revert i. induction xs as [|y xs IH]; intros i; cbn [forRange app].
  - rewrite andThen_done_l, andThen_done_r. cbn. now rewrite Nat.add_0_r.
  - rewrite IH, andThen_assoc. cbn [List.length].
    now rewrite Nat.add_succ_r.
Qed.

Lemma forRange_lines_Done {A : Type} (g : nat -> A -> string) (xs : list A)
      (i : nat) :
  out_status (forRange (fun j x => (g j x, Done)) i xs) = Done.
Proof.
  revert i. induction xs as [|y xs IH]; intros i; cbn; [reflexivity|].
  apply IH.
Qed.

(** X16.  [dumpUnknownMessages] and [dumpUnknownFields] print nothing, not
    even their heading, for an empty list; they never panic; and one more
    entry at the end of a non-empty list adds exactly one line, numbered
    with the entry's position, after what was printed before. *)
Theorem unknown_dumps_grow_by_one_line
        (M F : Type) (gm : M -> string) (gf : F -> string)
        (msgs : list M) (m : M) (fields : list F) (f : F) :
  FitDumpAlt.dumpUnknownMessages M gm [] = done
  /\ FitDumpAlt.dumpUnknownFields F gf [] = done
  /\ out_status (FitDumpAlt.dumpUnknownMessages M gm msgs) = Done
  /\ out_status (FitDumpAlt.dumpUnknownFields F gf fields) = Done
  /\ (msgs <> [] ->
      FitDumpAlt.dumpUnknownMessages M gm (msgs ++ [m])
      = FitDumpAlt.dumpUnknownMessages M gm msgs ;;
        ("  [" ++ strconv.Itoa (List.length msgs) ++ "] " ++ gm m
               ++ strings.nl, Done))
  /\ (fields <> [] ->
      FitDumpAlt.dumpUnknownFields F gf (fields ++ [f])
      = FitDumpAlt.dumpUnknownFields F gf fields ;;
        ("  [" ++ strconv.Itoa (List.length fields) ++ "] " ++ gf f
               ++ strings.nl, Done)).
Proof.
  unfold FitDumpAlt.dumpUnknownMessages, FitDumpAlt.dumpUnknownFields.
  repeat split.
  - destruct (List.length msgs =? 0)%nat; [reflexivity|].
    apply andThen_Done; [reflexivity | apply forRange_lines_Done].
  - destruct (List.length fields =? 0)%nat; [reflexivity|].
    apply andThen_Done; [reflexivity | apply forRange_lines_Done].
  - intros Hne. rewrite length_app. cbn [List.length].
    replace (List.length msgs + 1 =? 0)%nat with false
      by (symmetry; apply Nat.eqb_neq; lia).
    replace (List.length msgs =? 0)%nat with false
      by (symmetry; apply Nat.eqb_neq; destruct msgs; cbn; congruence).
    now rewrite forRange_snoc, andThen_assoc.
  - intros Hne. rewrite length_app. cbn [List.length].
    replace (List.length fields + 1 =? 0)%nat with false
      by (symmetry; apply Nat.eqb_neq; lia).
    replace (List.length fields =? 0)%nat with false
      by (symmetry; apply Nat.eqb_neq; destruct fields; cbn; congruence).
    now rewrite forRange_snoc, andThen_assoc.
Qed.

Lemma unknown_dumps_grow_by_one_line_witness :
  FitDumpAlt.dumpUnknownMessages string (fun s => s) (["a"] ++ ["b"])
  = FitDumpAlt.dumpUnknownMessages string (fun s => s) ["a"] ;;
    ("  [" ++ strconv.Itoa 1 ++ "] " ++ "b" ++ strings.nl, Done).
Proof.
  refine (proj1 (proj2 (proj2 (proj2 (proj2
            (unknown_dumps_grow_by_one_line string string
               (fun s => s) (fun s => s) ["a"] "b" ["c"] "d"))))) _).
  discriminate.
Defined.

(** ** Standard output as a whole *)

Lemma dumpTop_wholeLines {L : GoLib} (fitf : fit.File) :
  wholeLines (out_text (FitDumpAlt.dumpTop fitf)).
Proof.
  unfold FitDumpAlt.dumpTop.
  repeat (apply wholeLines_andThen; [apply dumpRecursive_wholeLines|]).
  apply dumpRecursive_wholeLines.
Qed.

Lemma stdout_wholeLines (evs : list Event) :
  Forall (fun ev => match ev with
                    | EvStdout text => wholeLines text
                    | _ => True
                    end) evs ->
  wholeLines (stdout evs).
Proof.
  induction 1 as [|ev evs H _ IH]; cbn; [now left|].
  destruct ev; try exact IH. now apply wholeLines_app.
Qed.

Ltac whole_events He :=
  repeat (apply Forall_cons;
          [ cbv beta iota; first [exact I | apply He | assumption] | ]);
  apply Forall_nil.

(** X17.  Everything a process writes to standard output is whole lines:
    the output is empty or ends in a newline, and the error line, when
    there is one, starts on a line of its own. *)
Theorem standard_output_is_whole_lines {L : GoLib} (w : World) :
  wholeLines (stdout (FitDump.main w))
  /\ wholeLines (stdout (FitDumpAlt.main w)).
Proof.
  assert (forall e, wholeLines (e ++ strings.nl)) as He
    by (intros e; right; now exists e).
  split; apply stdout_wholeLines;
    unfold FitDump.main, FitDumpAlt.main, FitDump.run, FitDumpAlt.run;
    (destruct (Args w) as [|path [|path' args]]; keep_dumps;
     [whole_events He | | whole_events He]);
    (destruct (Open w path) as [e|f]; keep_dumps; [whole_events He|]);
    (destruct (Decode w f) as [e|fitf]; keep_dumps; [whole_events He|]);
    rewrite ?getFileValue_by_tag, ?run_switch_by_tag.
  - pose proof (proj1 (dumpRecursive_wholeLines (fit.value fitf) path 0%nat))
      as W1.
    destruct (FitDump.dumpRecursive (fit.value fitf) path 0) as [s1 [|m1]];
      cbn [out_text fst] in W1; keep_dumps; [|whole_events He].
    destruct (matching (fit.Type_ fitf)) as [a|]; keep_dumps;
      [|whole_events He].
    destruct (fit.get fitf a) as [e|x]; keep_dumps; [whole_events He|].
    pose proof (proj1 (dumpRecursive_wholeLines (ValueOf_deref x)
                         (fit.sub_name x) 0%nat)) as W3.
    destruct (FitDump.dumpRecursive (ValueOf_deref x) (fit.sub_name x) 0)
      as [s2 [|m2]]; cbn [out_text fst] in W3; keep_dumps;
      whole_events He.
  - pose proof (dumpTop_wholeLines fitf) as W1.
    destruct (FitDumpAlt.dumpTop fitf) as [s1 [|m1]];
      cbn [out_text fst] in W1; keep_dumps; [|whole_events He].
    destruct (matching (fit.Type_ fitf)) as [a|]; keep_dumps;
      [|whole_events He].
    destruct (fit.get fitf a) as [e|x]; keep_dumps; [whole_events He|].
    pose proof (proj2 (dumpRecursive_wholeLines (ValueOf_deref x)
                         (fit.sub_name x) 0%nat)) as W3.
    destruct (FitDumpAlt.dumpRecursive (ValueOf_deref x) (fit.sub_name x) 0)
      as [s2 [|m2]]; cbn [out_text fst] in W3; keep_dumps;
      whole_events He.
Qed.
